(** * DIAM3.3 provenance chaincode and its benchmark driver

    A shallow embedding of [am_provenance.go] (the Hyperledger Fabric
    chaincode) and of [testThroughput] (the Node.js load driver), with the
    properties of the specification stated and proved over them.

    Conventions of the embedding:
    - the world state is a finite map from keys to stored values;
    - a stored value is a JSON document, kept as its syntax tree (the
      printer and the parser of [encoding/json] are taken to be inverse to
      each other on documents), or bytes that do not parse as JSON;
    - a Go string is a [string], its sequence of bytes; [json.Marshal] is
      modelled on valid UTF-8 text, which it writes unchanged (on other
      bytes it writes U+FFFD, which is not modelled);
    - the ambient services of a transaction (transaction id, caller
      identity, wall clock, failures of the stub) are fields of [Ctx]. *)

From Stdlib Require Import String Ascii List ZArith NArith Lia DecimalString SpecFloat.
From Stdlib Require Import DecimalPos DecimalN.
From stdpp Require Import base option list strings gmap.
Import ListNotations.
Local Open Scope string_scope.
Local Open Scope list_scope.

(** ** Results and errors *)

(** The [error] values the chaincode can return.  [fmt.Errorf] messages are
    kept as constructors, one per format string of the source. *)
Inductive error : Type :=
| StubError                       (* an error value produced by the Fabric stub *)
| FailedToGetClientMSPID          (* "failed to get client MSPID: %v" *)
| FailedToReadFromWorldState      (* "failed to read from world state: %v" *)
| AssetAlreadyExists (id : string)(* "the asset %s already exists" *)
| AssetDoesNotExist (id : string) (* "the asset %s does not exist" *)
| UnmarshalError                  (* an error of json.Unmarshal *)
| FailedToPutEventState.          (* "failed to put event state: %v" *)

Inductive res (A : Type) : Type :=
| Ok (a : A)
| Err (e : error).
Arguments Ok {A} a.
Arguments Err {A} e.

Definition is_ok {A} (r : res A) : bool :=
  match r with Ok _ => true | Err _ => false end.

Definition res_bind {A B} (r : res A) (k : A -> res B) : res B :=
  match r with Ok a => k a | Err e => Err e end.

(** ** JSON documents *)

Module Json.

#[local] Set Warnings "-register-all".

Inductive json : Type :=
| JNull
| JBool (b : bool)
| JNum (n : Z)
| JStr (s : string)
| JArr (elems : list json)
| JObj (members : list (string * json)).

(** Key matching of [encoding/json] is insensitive to letter case.  Only
    ASCII letters are folded here; the library also matches U+017F with [s]
    and U+212A with [k], in keys the chaincode never writes. *)
Definition lower_ascii (c : ascii) : ascii :=
  let n := N_of_ascii c in
  if ((65 <=? n) && (n <=? 90))%N then ascii_of_N (n + 32) else c.

Fixpoint fold_key (s : string) : string :=
  match s with
  | EmptyString => EmptyString
  | String c r => String (lower_ascii c) (fold_key r)
  end.

Definition key_is (k field : string) : bool :=
  String.eqb (fold_key k) (fold_key field).

(** Decoding a JSON value into a Go [string]: [null] leaves the field as it
    is, a JSON string sets it, anything else is a type error. *)
Definition into_string (old : string) (v : json) : res string :=
  match v with
  | JNull => Ok old
  | JStr s => Ok s
  | _ => Err UnmarshalError
  end.

Fixpoint into_strings (l : list json) : res (list string) :=
  match l with
  | [] => Ok []
  | v :: r =>
      res_bind (into_string "" v) (fun s =>
      res_bind (into_strings r) (fun ss => Ok (s :: ss)))
  end.

(** Decoding into a Go [[]string].  Each array is decoded into a new
    slice; the library reuses the slice of an earlier member of the same
    name, which shows only in objects with repeated keys. *)
Definition into_string_slice (v : json) : res (list string) :=
  match v with
  | JNull => Ok []
  | JArr l => into_strings l
  | _ => Err UnmarshalError
  end.

(** A field tagged [omitempty] is left out when it is the empty string. *)
Definition omitempty (k v : string) : list (string * json) :=
  if String.eqb v "" then [] else [(k, JStr v)].

End Json.
Import Json.

(** A value of the world state. *)
Inductive bytes : Type :=
| Doc (j : json)          (* bytes that parse as the JSON document [j] *)
| Garbled (raw : string). (* non-empty bytes that are not JSON *)

(** ** Data structures *)

Record Asset : Type := mkAsset {
  AssetID : string;
  Owner : string;
  CurrentLifecycleStage : string;
  HistoryTxIDs : list string
}.

Record ProvenanceEvent : Type := mkEvent {
  EventType : string;
  AgentID : string;
  Timestamp : string;
  OffChainDataHash : string;
  OnChainDataPayload : string;
  MaterialType : string;
  MaterialBatchID : string;
  SupplierID : string;
  DesignFileHash : string;
  DesignFileVersion : string;
  MachineID : string;
  MaterialBatchUsedID : string;
  BuildJobID : string;
  PrimaryInspectionResult : string;
  TestStandardApplied : string;
  FinalTestResult : string;
  CertificateID : string
}.

(** The zero values of the two structs. *)
Definition zeroAsset : Asset := mkAsset "" "" "" [].

Definition zeroEvent : ProvenanceEvent :=
  mkEvent "" "" "" "" "" "" "" "" "" "" "" "" "" "" "" "" "".

(** Field assignments. *)
Definition set_AssetID (v : string) (a : Asset) : Asset :=
  mkAsset v (Owner a) (CurrentLifecycleStage a) (HistoryTxIDs a).
Definition set_Owner (v : string) (a : Asset) : Asset :=
  mkAsset (AssetID a) v (CurrentLifecycleStage a) (HistoryTxIDs a).
Definition set_CurrentLifecycleStage (v : string) (a : Asset) : Asset :=
  mkAsset (AssetID a) (Owner a) v (HistoryTxIDs a).
Definition set_HistoryTxIDs (v : list string) (a : Asset) : Asset :=
  mkAsset (AssetID a) (Owner a) (CurrentLifecycleStage a) v.

Definition set_EventType (v : string) (e : ProvenanceEvent) : ProvenanceEvent :=
  let 'mkEvent _ f2 f3 f4 f5 f6 f7 f8 f9 f10 f11 f12 f13 f14 f15 f16 f17 := e in
  mkEvent v f2 f3 f4 f5 f6 f7 f8 f9 f10 f11 f12 f13 f14 f15 f16 f17.
Definition set_AgentID (v : string) (e : ProvenanceEvent) : ProvenanceEvent :=
  let 'mkEvent f1 _ f3 f4 f5 f6 f7 f8 f9 f10 f11 f12 f13 f14 f15 f16 f17 := e in
  mkEvent f1 v f3 f4 f5 f6 f7 f8 f9 f10 f11 f12 f13 f14 f15 f16 f17.
Definition set_Timestamp (v : string) (e : ProvenanceEvent) : ProvenanceEvent :=
  let 'mkEvent f1 f2 _ f4 f5 f6 f7 f8 f9 f10 f11 f12 f13 f14 f15 f16 f17 := e in
  mkEvent f1 f2 v f4 f5 f6 f7 f8 f9 f10 f11 f12 f13 f14 f15 f16 f17.
Definition set_OffChainDataHash (v : string) (e : ProvenanceEvent) : ProvenanceEvent :=
  let 'mkEvent f1 f2 f3 _ f5 f6 f7 f8 f9 f10 f11 f12 f13 f14 f15 f16 f17 := e in
  mkEvent f1 f2 f3 v f5 f6 f7 f8 f9 f10 f11 f12 f13 f14 f15 f16 f17.
Definition set_OnChainDataPayload (v : string) (e : ProvenanceEvent) : ProvenanceEvent :=
  let 'mkEvent f1 f2 f3 f4 _ f6 f7 f8 f9 f10 f11 f12 f13 f14 f15 f16 f17 := e in
  mkEvent f1 f2 f3 f4 v f6 f7 f8 f9 f10 f11 f12 f13 f14 f15 f16 f17.
Definition set_MaterialType (v : string) (e : ProvenanceEvent) : ProvenanceEvent :=
  let 'mkEvent f1 f2 f3 f4 f5 _ f7 f8 f9 f10 f11 f12 f13 f14 f15 f16 f17 := e in
  mkEvent f1 f2 f3 f4 f5 v f7 f8 f9 f10 f11 f12 f13 f14 f15 f16 f17.
Definition set_MaterialBatchID (v : string) (e : ProvenanceEvent) : ProvenanceEvent :=
  let 'mkEvent f1 f2 f3 f4 f5 f6 _ f8 f9 f10 f11 f12 f13 f14 f15 f16 f17 := e in
  mkEvent f1 f2 f3 f4 f5 f6 v f8 f9 f10 f11 f12 f13 f14 f15 f16 f17.
Definition set_SupplierID (v : string) (e : ProvenanceEvent) : ProvenanceEvent :=
  let 'mkEvent f1 f2 f3 f4 f5 f6 f7 _ f9 f10 f11 f12 f13 f14 f15 f16 f17 := e in
  mkEvent f1 f2 f3 f4 f5 f6 f7 v f9 f10 f11 f12 f13 f14 f15 f16 f17.
Definition set_DesignFileHash (v : string) (e : ProvenanceEvent) : ProvenanceEvent :=
  let 'mkEvent f1 f2 f3 f4 f5 f6 f7 f8 _ f10 f11 f12 f13 f14 f15 f16 f17 := e in
  mkEvent f1 f2 f3 f4 f5 f6 f7 f8 v f10 f11 f12 f13 f14 f15 f16 f17.
Definition set_DesignFileVersion (v : string) (e : ProvenanceEvent) : ProvenanceEvent :=
  let 'mkEvent f1 f2 f3 f4 f5 f6 f7 f8 f9 _ f11 f12 f13 f14 f15 f16 f17 := e in
  mkEvent f1 f2 f3 f4 f5 f6 f7 f8 f9 v f11 f12 f13 f14 f15 f16 f17.
Definition set_MachineID (v : string) (e : ProvenanceEvent) : ProvenanceEvent :=
  let 'mkEvent f1 f2 f3 f4 f5 f6 f7 f8 f9 f10 _ f12 f13 f14 f15 f16 f17 := e in
  mkEvent f1 f2 f3 f4 f5 f6 f7 f8 f9 f10 v f12 f13 f14 f15 f16 f17.
Definition set_MaterialBatchUsedID (v : string) (e : ProvenanceEvent) : ProvenanceEvent :=
  let 'mkEvent f1 f2 f3 f4 f5 f6 f7 f8 f9 f10 f11 _ f13 f14 f15 f16 f17 := e in
  mkEvent f1 f2 f3 f4 f5 f6 f7 f8 f9 f10 f11 v f13 f14 f15 f16 f17.
Definition set_BuildJobID (v : string) (e : ProvenanceEvent) : ProvenanceEvent :=
  let 'mkEvent f1 f2 f3 f4 f5 f6 f7 f8 f9 f10 f11 f12 _ f14 f15 f16 f17 := e in
  mkEvent f1 f2 f3 f4 f5 f6 f7 f8 f9 f10 f11 f12 v f14 f15 f16 f17.
Definition set_PrimaryInspectionResult (v : string) (e : ProvenanceEvent) : ProvenanceEvent :=
  let 'mkEvent f1 f2 f3 f4 f5 f6 f7 f8 f9 f10 f11 f12 f13 _ f15 f16 f17 := e in
  mkEvent f1 f2 f3 f4 f5 f6 f7 f8 f9 f10 f11 f12 f13 v f15 f16 f17.
Definition set_TestStandardApplied (v : string) (e : ProvenanceEvent) : ProvenanceEvent :=
  let 'mkEvent f1 f2 f3 f4 f5 f6 f7 f8 f9 f10 f11 f12 f13 f14 _ f16 f17 := e in
  mkEvent f1 f2 f3 f4 f5 f6 f7 f8 f9 f10 f11 f12 f13 f14 v f16 f17.
Definition set_FinalTestResult (v : string) (e : ProvenanceEvent) : ProvenanceEvent :=
  let 'mkEvent f1 f2 f3 f4 f5 f6 f7 f8 f9 f10 f11 f12 f13 f14 f15 _ f17 := e in
  mkEvent f1 f2 f3 f4 f5 f6 f7 f8 f9 f10 f11 f12 f13 f14 f15 v f17.
Definition set_CertificateID (v : string) (e : ProvenanceEvent) : ProvenanceEvent :=
  let 'mkEvent f1 f2 f3 f4 f5 f6 f7 f8 f9 f10 f11 f12 f13 f14 f15 f16 _ := e in
  mkEvent f1 f2 f3 f4 f5 f6 f7 f8 f9 f10 f11 f12 f13 f14 f15 f16 v.

(** ** [json.Marshal] and [json.Unmarshal] on the two structs *)

Definition marshal_asset (a : Asset) : bytes :=
  Doc (JObj [ ("assetID", JStr (AssetID a));
              ("owner", JStr (Owner a));
              ("currentLifecycleStage", JStr (CurrentLifecycleStage a));
              ("historyTxIDs", JArr (map JStr (HistoryTxIDs a))) ]).

Definition event_members (e : ProvenanceEvent) : list (string * json) :=
  [ ("eventType", JStr (EventType e));
    ("agentID", JStr (AgentID e));
    ("timestamp", JStr (Timestamp e)) ]
  ++ omitempty "offChainDataHash" (OffChainDataHash e)
  ++ omitempty "onChainDataPayload" (OnChainDataPayload e)
  ++ omitempty "materialType" (MaterialType e)
  ++ omitempty "materialBatchID" (MaterialBatchID e)
  ++ omitempty "supplierID" (SupplierID e)
  ++ omitempty "designFileHash" (DesignFileHash e)
  ++ omitempty "designFileVersion" (DesignFileVersion e)
  ++ omitempty "machineID" (MachineID e)
  ++ omitempty "materialBatchUsedID" (MaterialBatchUsedID e)
  ++ omitempty "buildJobID" (BuildJobID e)
  ++ omitempty "primaryInspectionResult" (PrimaryInspectionResult e)
  ++ omitempty "testStandardApplied" (TestStandardApplied e)
  ++ omitempty "finalTestResult" (FinalTestResult e)
  ++ omitempty "certificateID" (CertificateID e).

Definition marshal_event (e : ProvenanceEvent) : bytes :=
  Doc (JObj (event_members e)).

(** One member of a JSON object decoded into an [Asset]: the member is
    matched against the field tags, an unknown key is ignored. *)
Definition asset_member (a : Asset) (m : string * json) : res Asset :=
  let (k, v) := m in
  if key_is k "assetID" then
    res_bind (into_string (AssetID a) v) (fun s => Ok (set_AssetID s a))
  else if key_is k "owner" then
    res_bind (into_string (Owner a) v) (fun s => Ok (set_Owner s a))
  else if key_is k "currentLifecycleStage" then
    res_bind (into_string (CurrentLifecycleStage a) v)
             (fun s => Ok (set_CurrentLifecycleStage s a))
  else if key_is k "historyTxIDs" then
    res_bind (into_string_slice v) (fun l => Ok (set_HistoryTxIDs l a))
  else Ok a.

Definition str_field (get : ProvenanceEvent -> string)
    (set : string -> ProvenanceEvent -> ProvenanceEvent)
    (e : ProvenanceEvent) (v : json) : res ProvenanceEvent :=
  res_bind (into_string (get e) v) (fun s => Ok (set s e)).

Definition event_member (e : ProvenanceEvent) (m : string * json)
    : res ProvenanceEvent :=
  let (k, v) := m in
  if key_is k "eventType" then str_field EventType set_EventType e v
  else if key_is k "agentID" then str_field AgentID set_AgentID e v
  else if key_is k "timestamp" then str_field Timestamp set_Timestamp e v
  else if key_is k "offChainDataHash" then
    str_field OffChainDataHash set_OffChainDataHash e v
  else if key_is k "onChainDataPayload" then
    str_field OnChainDataPayload set_OnChainDataPayload e v
  else if key_is k "materialType" then str_field MaterialType set_MaterialType e v
  else if key_is k "materialBatchID" then
    str_field MaterialBatchID set_MaterialBatchID e v
  else if key_is k "supplierID" then str_field SupplierID set_SupplierID e v
  else if key_is k "designFileHash" then
    str_field DesignFileHash set_DesignFileHash e v
  else if key_is k "designFileVersion" then
    str_field DesignFileVersion set_DesignFileVersion e v
  else if key_is k "machineID" then str_field MachineID set_MachineID e v
  else if key_is k "materialBatchUsedID" then
    str_field MaterialBatchUsedID set_MaterialBatchUsedID e v
  else if key_is k "buildJobID" then str_field BuildJobID set_BuildJobID e v
  else if key_is k "primaryInspectionResult" then
    str_field PrimaryInspectionResult set_PrimaryInspectionResult e v
  else if key_is k "testStandardApplied" then
    str_field TestStandardApplied set_TestStandardApplied e v
  else if key_is k "finalTestResult" then
    str_field FinalTestResult set_FinalTestResult e v
  else if key_is k "certificateID" then
    str_field CertificateID set_CertificateID e v
  else Ok e.

(** The members of an object are decoded in order, each into the struct
    left by the previous ones; a type error makes the whole call fail. *)
Definition decode_members {A} (step : A -> string * json -> res A)
    (ms : list (string * json)) (start : res A) : res A :=
  fold_left (fun acc m => res_bind acc (fun a => step a m)) ms start.

Definition unmarshal_asset (b : bytes) : res Asset :=
  match b with
  | Garbled _ => Err UnmarshalError
  | Doc JNull => Ok zeroAsset
  | Doc (JObj ms) => decode_members asset_member ms (Ok zeroAsset)
  | Doc _ => Err UnmarshalError
  end.

Definition unmarshal_event (b : bytes) : res ProvenanceEvent :=
  match b with
  | Garbled _ => Err UnmarshalError
  | Doc JNull => Ok zeroEvent
  | Doc (JObj ms) => decode_members event_member ms (Ok zeroEvent)
  | Doc _ => Err UnmarshalError
  end.

(** ** The transaction context and the stub *)

(** What [contractapi.TransactionContextInterface] supplies to one
    invocation: the transaction id, the caller's MSP id (its lookup can
    fail), the wall clock already formatted as RFC 3339, and which keys the
    stub fails to read or to write during this invocation. *)
Record Ctx : Type := mkCtx {
  GetTxID : string;
  GetMSPID : res string;
  NowRFC3339 : string;
  GetFails : string -> bool;
  PutFails : string -> bool
}.

Abbreviation World := (gmap string bytes).

(** [ctx.GetStub().GetState(key)]: an error, or the value, [None] standing
    for the nil slice returned for an absent key. *)
Definition GetState (ctx : Ctx) (key : string) (w : World) : res (option bytes) :=
  if GetFails ctx key then Err StubError else Ok (w !! key).

(** Code that writes threads the world state and may stop with an error. *)
Definition M (A : Type) : Type := World -> World * res A.

Definition ret {A} (a : A) : M A := fun w => (w, Ok a).

Definition fail {A} (e : error) : M A := fun w => (w, Err e).

Definition bind {A B} (m : M A) (k : A -> M B) : M B :=
  fun w => match m w with
           | (w', Ok a) => k a w'
           | (w', Err e) => (w', Err e)
           end.

(** A read-only call run inside writing code. *)
Definition query {A} (q : World -> res A) : M A := fun w => (w, q w).

(** [if err != nil { return fmt.Errorf(..., err) }]. *)
Definition wrap {A} (e : error) (m : M A) : M A :=
  fun w => match m w with
           | (w', Ok a) => (w', Ok a)
           | (w', Err _) => (w', Err e)
           end.

Notation "'let*' x ':=' c 'in' k" := (bind c (fun x => k))
  (at level 10, x name, c at level 100, k at level 200).

(** [ctx.GetStub().PutState(key, value)]. *)
Definition PutState (ctx : Ctx) (key : string) (value : bytes) : M unit :=
  fun w => if PutFails ctx key then (w, Err StubError)
           else (<[key := value]> w, Ok tt).

(** ** Chaincode functions

    [json.Marshal] cannot fail on a struct of strings and string slices:
    the [if err != nil] that follows each call of it is dead code and has
    no counterpart below. *)

Definition recordEvent (ctx : Ctx) (event : ProvenanceEvent) : M string :=
  let txID := GetTxID ctx in
  let event := set_Timestamp (NowRFC3339 ctx) event in
  let eventJSON := marshal_event event in
  let* _ := wrap FailedToPutEventState (PutState ctx ("EVENT_" +:+ txID) eventJSON) in
  ret txID.

Definition AssetExists (ctx : Ctx) (id : string) (w : World) : res bool :=
  match GetState ctx id w with
  | Err _ => Err FailedToReadFromWorldState
  | Ok assetJSON => Ok (bool_decide (assetJSON <> None))
  end.

Definition ReadAsset (ctx : Ctx) (assetID : string) (w : World) : res Asset :=
  match GetState ctx assetID w with
  | Err _ => Err FailedToReadFromWorldState
  | Ok None => Err (AssetDoesNotExist assetID)
  | Ok (Some assetJSON) => unmarshal_asset assetJSON
  end.

Definition clientMSPID (ctx : Ctx) : M string :=
  fun w => match GetMSPID ctx with
           | Ok id => (w, Ok id)
           | Err _ => (w, Err FailedToGetClientMSPID)
           end.

Definition CreateMaterialCertification (ctx : Ctx)
    (assetID materialType materialBatchID supplierID offChainDataHash : string)
    : M unit :=
  let* clientMSPID := clientMSPID ctx in
  let* exists_ := query (AssetExists ctx assetID) in
  if exists_ : bool then fail (AssetAlreadyExists assetID) else
  let event :=
    set_SupplierID supplierID
      (set_MaterialBatchID materialBatchID
        (set_MaterialType materialType
          (set_OffChainDataHash offChainDataHash
            (set_AgentID clientMSPID
              (set_EventType "MATERIAL_CERTIFICATION_LIGHTWEIGHT" zeroEvent))))) in
  let* txID := recordEvent ctx event in
  let asset := mkAsset assetID clientMSPID "MATERIAL_CERTIFIED" [txID] in
  let assetJSON := marshal_asset asset in
  PutState ctx assetID assetJSON.

Definition naiveAssetID (assetID : string) : string := "NAIVE_" +:+ assetID.

Definition CreateMaterialCertification_Naive (ctx : Ctx)
    (assetID materialType materialBatchID supplierID fullDataPayload : string)
    : M unit :=
  let* clientMSPID := clientMSPID ctx in
  let naiveAssetID := naiveAssetID assetID in
  let* exists_ := query (AssetExists ctx naiveAssetID) in
  if exists_ : bool then fail (AssetAlreadyExists naiveAssetID) else
  let event :=
    set_SupplierID supplierID
      (set_MaterialBatchID materialBatchID
        (set_MaterialType materialType
          (set_OnChainDataPayload fullDataPayload
            (set_AgentID clientMSPID
              (set_EventType "MATERIAL_CERTIFICATION_NAIVE" zeroEvent))))) in
  let* txID := recordEvent ctx event in
  let asset := mkAsset naiveAssetID clientMSPID "MATERIAL_CERTIFIED_NAIVE" [txID] in
  let assetJSON := marshal_asset asset in
  PutState ctx naiveAssetID assetJSON.

Definition CreatePrintJobStart (ctx : Ctx)
    (assetID machineID materialBatchUsedID designFileHash buildJobID
     offChainDataHash : string) : M unit :=
  let* clientMSPID := clientMSPID ctx in
  let* exists_ := query (AssetExists ctx assetID) in
  if exists_ : bool then fail (AssetAlreadyExists assetID) else
  let event :=
    set_BuildJobID buildJobID
      (set_DesignFileHash designFileHash
        (set_MaterialBatchUsedID materialBatchUsedID
          (set_MachineID machineID
            (set_OffChainDataHash offChainDataHash
              (set_AgentID clientMSPID
                (set_EventType "PRINT_JOB_START" zeroEvent)))))) in
  let* txID := recordEvent ctx event in
  let asset := mkAsset assetID clientMSPID "IN_PRODUCTION" [txID] in
  let assetJSON := marshal_asset asset in
  PutState ctx assetID assetJSON.

Definition CreatePrintJobCompletion (ctx : Ctx)
    (assetID buildJobID inspectionResult offChainDataHash : string) : M unit :=
  let* clientMSPID := clientMSPID ctx in
  let* asset := query (ReadAsset ctx assetID) in
  let event :=
    set_PrimaryInspectionResult inspectionResult
      (set_BuildJobID buildJobID
        (set_OffChainDataHash offChainDataHash
          (set_AgentID clientMSPID
            (set_EventType "PRINT_JOB_COMPLETION" zeroEvent)))) in
  let* txID := recordEvent ctx event in
  let asset := set_CurrentLifecycleStage "AWAITING_QA" asset in
  let asset := set_HistoryTxIDs (HistoryTxIDs asset ++ [txID]) asset in
  let assetJSON := marshal_asset asset in
  PutState ctx assetID assetJSON.

Definition CreateQACertify (ctx : Ctx)
    (assetID testStandard testResult certificateID offChainDataHash : string)
    : M unit :=
  let* clientMSPID := clientMSPID ctx in
  let* asset := query (ReadAsset ctx assetID) in
  let event :=
    set_CertificateID certificateID
      (set_FinalTestResult testResult
        (set_TestStandardApplied testStandard
          (set_OffChainDataHash offChainDataHash
            (set_AgentID clientMSPID
              (set_EventType "QA_CERTIFY" zeroEvent))))) in
  let* txID := recordEvent ctx event in
  let asset :=
    if String.eqb testResult "CERTIFIED_FIT_FOR_USE"
    then set_CurrentLifecycleStage "CERTIFIED" asset
    else set_CurrentLifecycleStage "REJECTED" asset in
  let asset := set_HistoryTxIDs (HistoryTxIDs asset ++ [txID]) asset in
  let assetJSON := marshal_asset asset in
  PutState ctx assetID assetJSON.

(** The warnings [GetAssetHistory] prints, one constructor per format
    string. *)
Inductive warning : Type :=
| CouldNotRetrieveEvent (txID : string)
| NoEventFound (txID : string)
| CouldNotUnmarshalEvent (txID : string).

(** The body of the [for ... range asset.HistoryTxIDs] loop, run over the
    rest of the list with the [history] slice and the printed lines so far. *)
Fixpoint historyLoop (ctx : Ctx) (w : World) (txIDs : list string)
    (history : list ProvenanceEvent) (out : list warning)
    : list ProvenanceEvent * list warning :=
  match txIDs with
  | [] => (history, out)
  | txID :: rest =>
      let eventKey := "EVENT_" +:+ txID in
      match GetState ctx eventKey w with
      | Err _ => historyLoop ctx w rest history (out ++ [CouldNotRetrieveEvent txID])
      | Ok None => historyLoop ctx w rest history (out ++ [NoEventFound txID])
      | Ok (Some eventJSON) =>
          match unmarshal_event eventJSON with
          | Err _ =>
              historyLoop ctx w rest history (out ++ [CouldNotUnmarshalEvent txID])
          | Ok event => historyLoop ctx w rest (history ++ [event]) out
          end
      end
  end.

(** [GetAssetHistory]: the returned value together with what was printed. *)
Definition GetAssetHistory (ctx : Ctx) (assetID : string) (w : World)
    : res (list ProvenanceEvent) * list warning :=
  match ReadAsset ctx assetID w with
  | Err e => (Err e, [])
  | Ok asset =>
      let (history, out) := historyLoop ctx w (HistoryTxIDs asset) [] [] in
      (Ok history, out)
  end.

(** ** Observations of the world state *)

(** The asset a key decodes to, if any. *)
Definition asset_at (w : World) (id : string) : option Asset :=
  match w !! id with
  | Some v => match unmarshal_asset v with Ok a => Some a | Err _ => None end
  | None => None
  end.

(** One iteration of the history loop as a function of the transaction id:
    the event appended, or nothing when the entry is skipped. *)
Definition resolve (ctx : Ctx) (w : World) (txID : string) : option ProvenanceEvent :=
  match GetState ctx ("EVENT_" +:+ txID) w with
  | Ok (Some eventJSON) =>
      match unmarshal_event eventJSON with Ok event => Some event | Err _ => None end
  | _ => None
  end.

(** The line printed by one iteration, if any. *)
Definition warned (ctx : Ctx) (w : World) (txID : string) : option warning :=
  match GetState ctx ("EVENT_" +:+ txID) w with
  | Err _ => Some (CouldNotRetrieveEvent txID)
  | Ok None => Some (NoEventFound txID)
  | Ok (Some eventJSON) =>
      match unmarshal_event eventJSON with
      | Ok _ => None
      | Err _ => Some (CouldNotUnmarshalEvent txID)
      end
  end.

(** A context in which nothing fails. *)
Definition healthy (txID mspID now : string) : Ctx :=
  mkCtx txID (Ok mspID) now (fun _ => false) (fun _ => false).


(** ** Invocations *)

(** A transaction proposal for one of the five writing functions. *)
Inductive Call : Type :=
| InvokeCreateMaterialCertification
    (assetID materialType materialBatchID supplierID offChainDataHash : string)
| InvokeCreateMaterialCertification_Naive
    (assetID materialType materialBatchID supplierID fullDataPayload : string)
| InvokeCreatePrintJobStart
    (assetID machineID materialBatchUsedID designFileHash buildJobID
     offChainDataHash : string)
| InvokeCreatePrintJobCompletion
    (assetID buildJobID inspectionResult offChainDataHash : string)
| InvokeCreateQACertify
    (assetID testStandard testResult certificateID offChainDataHash : string).

Definition invoke (ctx : Ctx) (c : Call) : M unit :=
  match c with
  | InvokeCreateMaterialCertification a b c d e =>
      CreateMaterialCertification ctx a b c d e
  | InvokeCreateMaterialCertification_Naive a b c d e =>
      CreateMaterialCertification_Naive ctx a b c d e
  | InvokeCreatePrintJobStart a b c d e f => CreatePrintJobStart ctx a b c d e f
  | InvokeCreatePrintJobCompletion a b c d => CreatePrintJobCompletion ctx a b c d
  | InvokeCreateQACertify a b c d e => CreateQACertify ctx a b c d e
  end.

(** Invocations run one after the other, stopping at the first error. *)
Fixpoint invoke_all (calls : list (Ctx * Call)) : M unit :=
  match calls with
  | [] => ret tt
  | (ctx, c) :: rest => let* _ := invoke ctx c in invoke_all rest
  end.

(** The world states the chaincode produces from the empty ledger, under
    any contexts, whether an invocation returns an error or not. *)
Inductive reachable : World -> Prop :=
| reachable_empty : reachable ∅
| reachable_invoke w ctx c : reachable w -> reachable (fst (invoke ctx c w)).

(** The two functions that update an existing asset, called on [id]. *)
Definition updates (id : string) (c : Call) : bool :=
  match c with
  | InvokeCreatePrintJobCompletion a _ _ _ => String.eqb a id
  | InvokeCreateQACertify a _ _ _ _ => String.eqb a id
  | _ => false
  end.

(** The stage [CreateQACertify] assigns. *)
Definition qaStage (testResult : string) : string :=
  if String.eqb testResult "CERTIFIED_FIT_FOR_USE" then "CERTIFIED" else "REJECTED".

(** A call that returns an error and leaves the world state as it was. *)
Definition refused (w : World) (r : World * res unit) : Prop :=
  r.1 = w /\ is_ok r.2 = false.

(** How a creation call on a bound key ends: it is refused, and with
    "already exists" when the caller identity is available and the read of
    the key does not fail. *)
Definition rejected_as_duplicate (ctx : Ctx) (key : string) (w : World)
    (r : World * res unit) : Prop :=
  refused w r /\
  (is_ok (GetMSPID ctx) = true -> GetFails ctx key = false ->
   r = (w, Err (AssetAlreadyExists key))).

(** ** Sample ledgers *)

(** The ledger after the material batch [A1] has been certified. *)
Definition ledgerA1 : World :=
  (CreateMaterialCertification
     (healthy "tx0" "Org1MSP" "2024-05-01T10:00:00Z")
     "A1" "Ti6Al4V" "POWDER-1" "SupplierCorpMSP" "h1" ∅).1.

(** The ledger after part [P1] has been started, completed and certified. *)
Definition ledgerP1 : World :=
  (invoke_all
     [ (healthy "tx1" "Org1MSP" "2024-05-01T11:00:00Z",
        InvokeCreatePrintJobStart "P1" "M1" "POWDER-1" "d1" "JOB-1" "h1");
       (healthy "tx2" "Org1MSP" "2024-05-01T12:00:00Z",
        InvokeCreatePrintJobCompletion "P1" "JOB-1" "PASS" "h2");
       (healthy "tx3" "Org2MSP" "2024-05-01T13:00:00Z",
        InvokeCreateQACertify "P1" "ASTM-F2924" "CERTIFIED_FIT_FOR_USE" "CERT-1" "h3") ]
     ∅).1.


(** The same part before quality assurance. *)
Definition ledgerAwaitingQA : World :=
  (invoke_all
     [ (healthy "tx1" "Org1MSP" "2024-05-01T11:00:00Z",
        InvokeCreatePrintJobStart "P1" "M1" "POWDER-1" "d1" "JOB-1" "h1");
       (healthy "tx2" "Org1MSP" "2024-05-01T12:00:00Z",
        InvokeCreatePrintJobCompletion "P1" "JOB-1" "PASS" "h2") ]
     ∅).1.

(** A reader whose point read of the event of [tx2] fails. *)
Definition flakyReader : Ctx :=
  mkCtx "q1" (Ok "Org1MSP") "2024-05-02T09:00:00Z"
        (fun key => String.eqb key "EVENT_tx2") (fun _ => false).

(** ** The three ways an invocation ends *)

(** The tail common to the five writing functions, once the caller identity
    and the precondition on the asset key have been obtained: the event is
    put, and only then the asset. *)
Definition write_event_then_asset (ctx : Ctx) (ev : ProvenanceEvent)
    (key : string) (a : Asset) (w : World) : World * res unit :=
  let eventKey := "EVENT_" +:+ GetTxID ctx in
  if PutFails ctx eventKey then (w, Err FailedToPutEventState)
  else
    let w1 := <[eventKey := marshal_event ev]> w in
    if PutFails ctx key then (w1, Err StubError)
    else (<[key := marshal_asset a]> w1, Ok tt).

(** The asset a successful update stores in place of [old]. *)
Definition updated (stage txID : string) (old : Asset) : Asset :=
  set_HistoryTxIDs (HistoryTxIDs old ++ [txID]) (set_CurrentLifecycleStage stage old).

(** Whether an update of [id] goes through: the caller identity is
    available, the asset is read and decoded, and both writes succeed.  The
    current stage of the asset takes no part in it. *)
Definition update_accepted (ctx : Ctx) (id : string) (w : World) : bool :=
  is_ok (GetMSPID ctx) && is_ok (ReadAsset ctx id w)
  && negb (PutFails ctx ("EVENT_" +:+ GetTxID ctx)) && negb (PutFails ctx id).

(** The asset key a creation call writes. *)
Definition creates (c : Call) : option string :=
  match c with
  | InvokeCreateMaterialCertification id _ _ _ _ => Some id
  | InvokeCreateMaterialCertification_Naive id _ _ _ _ => Some (naiveAssetID id)
  | InvokeCreatePrintJobStart id _ _ _ _ _ => Some id
  | _ => None
  end.

(** Every history entry of every stored asset has its event key bound. *)
Definition history_bound (w : World) : Prop :=
  forall id a txID,
    asset_at w id = Some a -> txID ∈ HistoryTxIDs a ->
    is_Some (w !! ("EVENT_" +:+ txID)).

(** Every stored value is a record the chaincode marshalled. *)
Definition chaincode_written (w : World) : Prop :=
  forall key v, w !! key = Some v ->
    (exists e, v = marshal_event e) \/ (exists a, v = marshal_asset a).

(** The ledger after a lightweight certification of the batch ["NAIVE_A"]. *)
Definition ledgerPrefixed : World :=
  (CreateMaterialCertification
     (healthy "tx7" "Org1MSP" "2024-05-04T10:00:00Z")
     "NAIVE_A" "Ti6Al4V" "POWDER-7" "SupplierCorpMSP" "h7" ∅).1.

(** ** The throughput driver *)

Module Harness.

(** JavaScript numbers are IEEE 754 binary64 values. *)
Definition number : Type := spec_float.

(** [Number(z)] for a BigInt or an integer literal [z]: the nearest double. *)
Definition Number (z : Z) : number := binary_normalize 53 1024 z 0 false.

(** The [/] of JavaScript numbers. *)
Definition div (x y : number) : number := SFdiv 53 1024 x y.

(** An integer inside a template literal. *)
Definition decimal (n : N) : string := NilZero.string_of_uint (N.to_uint n).

(** An element of the [transactions] array. *)
Record Transaction : Type := mkTransaction {
  func : string;
  args : list string
}.

(** What the driver takes from its surroundings during one call of
    [testThroughput]. *)
Record Env : Type := mkEnv {
  dateNow : nat -> N;           (* Date.now() while transaction i is built *)
  sha256hex : string -> string; (* createHash('sha256').update(s).digest('hex') *)
  randomBase64 : nat -> string; (* randomBytes(payloadSize).toString('base64'),
                                   for the sizes randomBytes accepts *)
  submitOk : nat -> bool;       (* whether submitTransaction of transaction i resolves *)
  startTime : Z;                (* process.hrtime.bigint() before the first batch *)
  endTime : Z                   (* process.hrtime.bigint() after the last batch *)
}.

(** The body of the first loop: the transaction pushed at index [i]. *)
Definition transaction (env : Env) (payloadSize : N) (i : nat) : Transaction :=
  let assetId :=
    "TPS_" +:+ decimal payloadSize +:+ "_" +:+ decimal (dateNow env i)
      +:+ "_" +:+ decimal (N.of_nat i) in
  if N.eqb payloadSize 0 then
    let offChainHash := sha256hex env ("tps_payload_" +:+ decimal (N.of_nat i)) in
    mkTransaction "CreateMaterialCertification"
      [assetId; "TPS-Mat"; "TPS-Batch-" +:+ decimal (N.of_nat i); "TPS-Supplier";
       offChainHash]
  else
    let payload := randomBase64 env i in
    mkTransaction "CreateMaterialCertification_Naive"
      [assetId; "TPS-Mat-Naive"; "TPS-Batch-Naive-" +:+ decimal (N.of_nat i);
       "TPS-Supplier-Naive"; payload].

(** [for (let i = 0; i < txCount; i++) transactions.push(...)], with
    [remaining] iterations to go. *)
Fixpoint buildTransactions (env : Env) (payloadSize : N) (remaining i : nat)
    (transactions : list Transaction) : list Transaction :=
  match remaining with
  | 0 => transactions
  | S remaining' =>
      buildTransactions env payloadSize remaining' (S i)
        (transactions ++ [transaction env payloadSize i])
  end.

(** How the [try] block ends. *)
Inductive ending : Type :=
| Completed   (* the loop ran to its end *)
| Thrown.     (* an [await Promise.all] rejected *)

(** [for (let i = 0; i < transactions.length; i += concurrency)]: every
    call of the chunk is issued, then the driver waits for all of them.
    [sent] collects the calls issued so far.  The loop need not end (it does
    not when [concurrency] is 0), so it runs on [fuel]. *)
Fixpoint submitBatches (env : Env) (fuel : nat) (transactions : list Transaction)
    (concurrency i : nat) (sent : list Transaction)
    : option (ending * list Transaction) :=
  match fuel with
  | 0 => None
  | S fuel' =>
      if Nat.ltb i (length transactions) then
        let chunk := take concurrency (drop i transactions) in
        let sent := sent ++ chunk in
        if forallb (submitOk env) (seq i (length chunk)) then
          submitBatches env fuel' transactions concurrency (i + concurrency) sent
        else Some (Thrown, sent)
      else Some (Completed, sent)
  end.

(** [testThroughput(contract, payloadSize, txCount, concurrency)]: the
    returned number and the calls issued, or [None] when [fuel] runs out.
    What is written to the console is left out. *)
Definition testThroughput (env : Env) (fuel : nat) (payloadSize : N)
    (txCount concurrency : nat) : option (number * list Transaction) :=
  let transactions := buildTransactions env payloadSize txCount 0 [] in
  let startTime := startTime env in
  match submitBatches env fuel transactions concurrency 0 [] with
  | None => None
  | Some (Completed, sent) =>
      let endTime := endTime env in
      let totalTimeMs := Number (Z.quot (endTime - startTime) 1000000) in
      let totalTimeSec := div totalTimeMs (Number 1000) in
      let tps := div (Number (Z.of_nat txCount)) totalTimeSec in
      Some (tps, sent)
  | Some (Thrown, sent) => Some (Number 0, sent)
  end.

(** The variant of [latency_test.js], which fixes the two counts. *)
Definition throughputTestCount : nat := 100.
Definition concurrency : nat := 10.

Definition testThroughput_fixed (env : Env) (fuel : nat) (payloadSize : N)
    : option (number * list Transaction) :=
  testThroughput env fuel payloadSize throughputTestCount concurrency.

(** A run of 5 calls in batches of 2 in which call 2 fails, and one in
    which every call resolves after 2.5 seconds. *)
Definition failingRun : Env :=
  mkEnv (fun _ => 1700000000000%N) (fun s => s) (fun _ => "cGF5bG9hZA==")
        (fun i => negb (Nat.eqb i 2)) 1000 2500001000.

Definition cleanRun : Env :=
  mkEnv (fun _ => 1700000000000%N) (fun s => s) (fun _ => "cGF5bG9hZA==")
        (fun _ => true) 1000 2500001000.

End Harness.

(** ** Further observations of an invocation *)

(** The asset key an invocation reads and writes. *)
Definition target (c : Call) : string :=
  match c with
  | InvokeCreateMaterialCertification id _ _ _ _ => id
  | InvokeCreateMaterialCertification_Naive id _ _ _ _ => naiveAssetID id
  | InvokeCreatePrintJobStart id _ _ _ _ _ => id
  | InvokeCreatePrintJobCompletion id _ _ _ => id
  | InvokeCreateQACertify id _ _ _ _ => id
  end.

(** The stage a creation function gives the new asset. *)
Definition initialStage (c : Call) : string :=
  match c with
  | InvokeCreateMaterialCertification _ _ _ _ _ => "MATERIAL_CERTIFIED"
  | InvokeCreateMaterialCertification_Naive _ _ _ _ _ => "MATERIAL_CERTIFIED_NAIVE"
  | InvokeCreatePrintJobStart _ _ _ _ _ _ => "IN_PRODUCTION"
  | _ => ""
  end.

(** Whether a creation goes through: the caller identity is available, the
    key is read and found unbound, and both writes succeed. *)
Definition creation_accepted (ctx : Ctx) (key : string) (w : World) : bool :=
  is_ok (GetMSPID ctx)
  && match AssetExists ctx key w with Ok false => true | _ => false end
  && negb (PutFails ctx ("EVENT_" +:+ GetTxID ctx)) && negb (PutFails ctx key).

(** Every stored asset record has at least one history entry. *)
Definition histories_nonempty (w : World) : Prop :=
  forall key a, w !! key = Some (marshal_asset a) -> HistoryTxIDs a <> [].

(** ** The test plans and the read test *)

Module StressPlan.
Import Harness.

(** The asset id of a transaction: the first argument. *)
Definition assetIdOf (t : Transaction) : string :=
  match args t with
  | id :: _ => id
  | [] => ""
  end.

(** Whether a character occurs in a string. *)
Fixpoint occurs (c : ascii) (s : string) : bool :=
  match s with
  | EmptyString => false
  | String d r => Ascii.eqb c d || occurs c r
  end.

(** An entry of [throughputPayloads]. *)
Record Config : Type := mkConfig {
  name : string;
  size : N;
  count : nat;
  concurrency : nat
}.

(** [throughputPayloads] of the stress test ([part_000]). *)
Definition throughputPayloads : list Config :=
  [ mkConfig "Lightweight" 1 1000 100;
    mkConfig "Naive (10KB)" (10 * 1024) 100 50;
    mkConfig "Naive (50KB)" (50 * 1024) 100 50;
    mkConfig "Naive (1MB)" (1 * 1024 * 1024) 20 5;
    mkConfig "Naive (2MB)" (2 * 1024 * 1024) 20 5 ].

End StressPlan.

Module ReadTest.
Import Harness.

(** What [read_test.js] takes from its surroundings: the transaction context
    the network gives to the [k]-th submitted transaction, and the hash. *)
Record Env : Type := mkEnv {
  txContext : nat -> Ctx;
  sha256hex : string -> string
}.

(** [await contract.submitTransaction(...)]: the chaincode function runs in
    the context of the transaction; when it returns nil its writes are
    committed and the promise resolves, when it returns an error nothing is
    committed and the promise rejects. *)
Definition submitTransaction (ctx : Ctx) (c : Call) (w : World) : World * bool :=
  match invoke ctx c w with
  | (w', Ok _) => (w', true)
  | (_, Err _) => (w, false)
  end.

(** The loop of [createLongHistoryAsset], with [remaining] iterations to go;
    a rejected promise leaves the loop for the [catch]. *)
Fixpoint addHistory (env : Env) (assetId : string) (remaining i : nat) (w : World)
    : World * bool :=
  match remaining with
  | 0 => (w, true)
  | S remaining' =>
      let offChainHash := sha256hex env ("history_event_" +:+ decimal (N.of_nat i)) in
      match submitTransaction (txContext env (S i))
              (InvokeCreatePrintJobCompletion assetId
                 ("BUILD_FOR_READ_TEST_" +:+ decimal (N.of_nat i)) "PASS" offChainHash)
              w with
      | (w', true) => addHistory env assetId remaining' (S i) w'
      | (w', false) => (w', false)
      end
  end.

(** [createLongHistoryAsset(contract, assetId, numHistoryEvents)]: the
    ledger it leaves and the boolean it returns.  The pauses between the
    writes and the console output are left out. *)
Definition createLongHistoryAsset (env : Env) (assetId : string)
    (numHistoryEvents : nat) (w : World) : World * bool :=
  match submitTransaction (txContext env 0)
          (InvokeCreatePrintJobStart assetId "READ_TEST_MACHINE" "READ_TEST_MATERIAL"
             "READ_TEST_DESIGN_HASH" "BUILD_FOR_READ_TEST" "dummy_hash_start")
          w with
  | (w', true) => addHistory env assetId numHistoryEvents 0 w'
  | (w', false) => (w', false)
  end.

(** [historyLength] of the script. *)
Definition historyLength : nat := 20.

(** A network on which nothing fails and transaction [k] gets the id
    ["tx"] followed by [k]. *)
Definition quietNetwork : Env :=
  mkEnv (fun k => healthy ("tx" +:+ decimal (N.of_nat k)) "Org1MSP"
                    "2024-05-09T10:00:00Z")
        (fun s => s).

(** The same network, except that its third transaction has no identity. *)
Definition brokenNetwork : Env :=
  mkEnv (fun k => if Nat.eqb k 2
                  then mkCtx "tx2" (Err StubError) "2024-05-09T10:00:00Z"
                             (fun _ => false) (fun _ => false)
                  else txContext quietNetwork k)
        (fun s => s).

End ReadTest.

(** ** Shape of the stored asset records *)

(** The stages the chaincode writes. *)
Definition stages : list string :=
  [ "MATERIAL_CERTIFIED"; "MATERIAL_CERTIFIED_NAIVE"; "IN_PRODUCTION";
    "AWAITING_QA"; "CERTIFIED"; "REJECTED" ].

(** An asset record as the chaincode leaves it under [key]: its stage is one
    of [stages]; its id is the key, or else id and owner are both empty (the
    record of an update that read an event as an asset). *)
Definition well_shaped (key : string) (a : Asset) : Prop :=
  CurrentLifecycleStage a ∈ stages /\
  (AssetID a = key \/ (AssetID a = "" /\ Owner a = "")).

Definition records_well_shaped (w : World) : Prop :=
  forall key a, w !! key = Some (marshal_asset a) -> well_shaped key a.

(** The ledger of [P1] with the record of the asset replaced by bytes that
    are not JSON. *)
Definition ledgerCorrupt : World := <["P1" := Garbled "###"]> ledgerP1.

(** ** Keeping asset keys and event keys apart *)

(** The world states produced from the empty ledger by invocations whose
    asset key does not begin with ["EVENT_"]. *)
Inductive reachable_apart : World -> Prop :=
| apart_empty : reachable_apart ∅
| apart_invoke w ctx c :
    reachable_apart w ->
    String.prefix "EVENT_" (target c) = false ->
    reachable_apart (invoke ctx c w).1.

(** Keys beginning with ["EVENT_"] hold event records, the others asset
    records. *)
Definition records_by_key (w : World) : Prop :=
  forall key v, w !! key = Some v ->
    if String.prefix "EVENT_" key
    then exists e, v = marshal_event e
    else exists a, v = marshal_asset a.

(** The ledger of [P1] after an update was called with the event key of
    [tx1] as its asset id. *)
Definition ledgerOverwritten : World :=
  (invoke (healthy "tx6" "Org3MSP" "2024-05-06T10:00:00Z")
     (InvokeCreatePrintJobCompletion "EVENT_tx1" "JOB-X" "PASS" "h6") ledgerP1).1.

(** ** Text *)

(** [utf8.ValidString]: the strings that [json.Marshal] writes as they are
    (any other byte sequence is written with U+FFFD in place of the
    offending bytes).  A [string] is its sequence of bytes. *)
Definition between (lo hi : N) (c : ascii) : bool :=
  ((lo <=? N_of_ascii c) && (N_of_ascii c <=? hi))%N.

Definition continuation (c : ascii) : bool := between 128 191 c.

Fixpoint valid_utf8 (s : string) : bool :=
  match s with
  | EmptyString => true
  | String c r =>
      if between 0 127 c then valid_utf8 r
      else if between 194 223 c then
        match r with
        | String c1 r1 => continuation c1 && valid_utf8 r1
        | _ => false
        end
      else if between 224 239 c then
        match r with
        | String c1 (String c2 r2) =>
            (if between 224 224 c then between 160 191 c1
             else if between 237 237 c then between 128 159 c1
             else continuation c1)
            && continuation c2 && valid_utf8 r2
        | _ => false
        end
      else if between 240 244 c then
        match r with
        | String c1 (String c2 (String c3 r3)) =>
            (if between 240 240 c then between 144 191 c1
             else if between 244 244 c then between 128 143 c1
             else continuation c1)
            && continuation c2 && continuation c3 && valid_utf8 r3
        | _ => false
        end
      else false
  end.
(** ** Properties of the codec *)

Section Codec.

Lemma into_strings_map (l : list string) : into_strings (map JStr l) = Ok l.
Proof.
  induction l as [|s l IH]; [reflexivity|].
  simpl. rewrite IH. reflexivity.
Qed.

Lemma decode_members_app {A} (step : A -> string * json -> res A) l1 l2 start :
  decode_members step (l1 ++ l2) start
  = decode_members step l2 (decode_members step l1 start).
Proof. apply fold_left_app. Qed.

(** Round trip of an [Asset] through the world state. *)
Lemma unmarshal_marshal_asset (a : Asset) :
  unmarshal_asset (marshal_asset a) = Ok a.
Proof.
  destruct a as [id own st h].
  cbv -[into_strings map].
  rewrite into_strings_map. reflexivity.
Qed.

Local Ltac omitted set :=
  match goal with
  | |- context [decode_members event_member (omitempty ?k ?v) (Ok ?E)] =>
      replace (decode_members event_member (omitempty k v) (Ok E))
        with (Ok (set v E)) by (destruct v; reflexivity);
      cbv beta iota delta [set]
  end.

(** Round trip of a [ProvenanceEvent], whichever optional fields are empty. *)
Lemma unmarshal_marshal_event (e : ProvenanceEvent) :
  unmarshal_event (marshal_event e) = Ok e.
Proof.
  destruct e.
  unfold marshal_event, event_members, unmarshal_event.
  cbv beta iota delta
    [EventType AgentID Timestamp OffChainDataHash OnChainDataPayload
     MaterialType MaterialBatchID SupplierID DesignFileHash DesignFileVersion
     MachineID MaterialBatchUsedID BuildJobID PrimaryInspectionResult
     TestStandardApplied FinalTestResult CertificateID].
  rewrite !decode_members_app.
  match goal with
  | |- context [decode_members event_member [?a; ?b; ?c] (Ok zeroEvent)] =>
      let r := eval cbv in (decode_members event_member [a; b; c] (Ok zeroEvent)) in
      change (decode_members event_member [a; b; c] (Ok zeroEvent)) with r
  end.
  omitted set_OffChainDataHash.
  omitted set_OnChainDataPayload.
  omitted set_MaterialType.
  omitted set_MaterialBatchID.
  omitted set_SupplierID.
  omitted set_DesignFileHash.
  omitted set_DesignFileVersion.
  omitted set_MachineID.
  omitted set_MaterialBatchUsedID.
  omitted set_BuildJobID.
  omitted set_PrimaryInspectionResult.
  omitted set_TestStandardApplied.
  omitted set_FinalTestResult.
  omitted set_CertificateID.
  reflexivity.
Qed.

(** No tag of [ProvenanceEvent] is a tag of [Asset], and [json.Unmarshal]
    ignores unknown keys: a stored event decodes as the zero [Asset] ... *)
Lemma unmarshal_asset_of_event (e : ProvenanceEvent) :
  unmarshal_asset (marshal_event e) = Ok zeroAsset.
Proof.
  destruct e.
  unfold marshal_event, event_members, unmarshal_asset.
  rewrite !decode_members_app.
  match goal with
  | |- context [decode_members asset_member [?a; ?b; ?c] (Ok zeroAsset)] =>
      change (decode_members asset_member [a; b; c] (Ok zeroAsset))
        with (Ok zeroAsset)
  end.
  repeat match goal with
  | |- context [decode_members asset_member (omitempty ?k ?v) (Ok ?E)] =>
      replace (decode_members asset_member (omitempty k v) (Ok E))
        with (Ok E) by (destruct v; reflexivity)
  end.
  reflexivity.
Qed.

(** ... and a stored asset decodes as the zero [ProvenanceEvent]. *)
Lemma unmarshal_event_of_asset (a : Asset) :
  unmarshal_event (marshal_asset a) = Ok zeroEvent.
Proof. destruct a. reflexivity. Qed.

Lemma unmarshal_asset_garbled raw : unmarshal_asset (Garbled raw) = Err UnmarshalError.
Proof. reflexivity. Qed.

Lemma unmarshal_event_garbled raw : unmarshal_event (Garbled raw) = Err UnmarshalError.
Proof. reflexivity. Qed.

End Codec.

Section Reads.

Lemma historyLoop_spec ctx w txIDs history out :
  historyLoop ctx w txIDs history out
  = (history ++ omap (resolve ctx w) txIDs, out ++ omap (warned ctx w) txIDs).
Proof.
  revert history out.
  induction txIDs as [|tx rest IH]; intros history out; simpl.
  - by rewrite !app_nil_r.
  - unfold resolve, warned.
    destruct (GetState ctx ("EVENT_" +:+ tx) w) as [[v|]|]; simpl.
    + destruct (unmarshal_event v); simpl; rewrite IH;
        by rewrite <- ?app_assoc.
    + rewrite IH. by rewrite <- app_assoc.
    + rewrite IH. by rewrite <- app_assoc.
Qed.

Lemma GetAssetHistory_spec ctx id w :
  GetAssetHistory ctx id w =
  match ReadAsset ctx id w with
  | Err e => (Err e, [])
  | Ok a => (Ok (omap (resolve ctx w) (HistoryTxIDs a)),
             omap (warned ctx w) (HistoryTxIDs a))
  end.
Proof.
  unfold GetAssetHistory. destruct (ReadAsset ctx id w); [|done].
  by rewrite historyLoop_spec.
Qed.

Lemma warned_iff ctx w tx : is_Some (warned ctx w tx) <-> resolve ctx w tx = None.
Proof.
  unfold warned, resolve.
  destruct (GetState ctx _ w) as [[v|]|]; [destruct (unmarshal_event v)|..];
    split; intros H; try done; try (by eexists); by destruct H.
Qed.

Lemma omap_all_some {A B} (f : A -> option B) (l : list A) :
  Forall (fun x => is_Some (f x)) l ->
  Forall2 (fun x y => f x = Some y) l (omap f l).
Proof.
  induction 1 as [|x l [y Hy] _ IH]; simpl; [constructor|].
  rewrite Hy. by constructor.
Qed.

Lemma omap_all_none {A B} (f : A -> option B) (l : list A) :
  Forall (fun x => f x = None) l -> omap f l = [].
Proof. induction 1 as [|x l Hx _ IH]; simpl; [done|]. by rewrite Hx. Qed.

Lemma ReadAsset_asset_at ctx id w a :
  ReadAsset ctx id w = Ok a -> asset_at w id = Some a.
Proof.
  unfold ReadAsset, GetState, asset_at.
  destruct (GetFails ctx id); [done|].
  destruct (w !! id) as [v|]; [|done]. by intros ->.
Qed.

Lemma asset_at_ReadAsset ctx id w a :
  GetFails ctx id = false -> asset_at w id = Some a -> ReadAsset ctx id w = Ok a.
Proof.
  unfold ReadAsset, GetState, asset_at. intros ->.
  destruct (w !! id) as [v|]; [|done].
  destruct (unmarshal_asset v); naive_solver.
Qed.

End Reads.

(** ** Running the writing functions *)

Ltac run :=
  unfold CreateMaterialCertification, CreateMaterialCertification_Naive,
    CreatePrintJobStart, CreatePrintJobCompletion, CreateQACertify,
    bind, query, clientMSPID, recordEvent, wrap, PutState, ret, fail.

Section Writes.

Lemma AssetExists_bound ctx id w v :
  w !! id = Some v ->
  AssetExists ctx id w = Ok true \/ AssetExists ctx id w = Err FailedToReadFromWorldState.
Proof.
  intros Hv. unfold AssetExists, GetState.
  destruct (GetFails ctx id); [by right|left].
  rewrite Hv. rewrite bool_decide_eq_true_2; done.
Qed.

Lemma AssetExists_bound_ok ctx id w v :
  w !! id = Some v -> GetFails ctx id = false -> AssetExists ctx id w = Ok true.
Proof.
  intros Hv Hg. unfold AssetExists, GetState. rewrite Hg, Hv.
  rewrite bool_decide_eq_true_2; done.
Qed.

(** What [recordEvent] does, as an equation. *)
Lemma recordEvent_spec ctx event w :
  recordEvent ctx event w =
  if PutFails ctx ("EVENT_" +:+ GetTxID ctx) then (w, Err FailedToPutEventState)
  else (<["EVENT_" +:+ GetTxID ctx
          := marshal_event (set_Timestamp (NowRFC3339 ctx) event)]> w,
        Ok (GetTxID ctx)).
Proof. run. by destruct (PutFails ctx _). Qed.

End Writes.

Section WriteShapes.

Lemma set_Timestamp_twice t1 t2 e :
  set_Timestamp t1 (set_Timestamp t2 e) = set_Timestamp t1 e.
Proof. by destruct e. Qed.

Lemma Timestamp_set t e : Timestamp (set_Timestamp t e) = t.
Proof. by destruct e. Qed.

Local Ltac shape :=
  run; unfold write_event_then_asset;
  eexists; split; [apply Timestamp_set|];
  repeat match goal with
         | |- context [PutFails ?c ?k] => destruct (PutFails c k)
         end; reflexivity.

Lemma CreatePrintJobCompletion_spec ctx id b i h w :
  match GetMSPID ctx, ReadAsset ctx id w with
  | Err _, _ => CreatePrintJobCompletion ctx id b i h w = (w, Err FailedToGetClientMSPID)
  | Ok _, Err e => CreatePrintJobCompletion ctx id b i h w = (w, Err e)
  | Ok _, Ok old =>
      exists ev, Timestamp ev = NowRFC3339 ctx /\
        CreatePrintJobCompletion ctx id b i h w
        = write_event_then_asset ctx ev id (updated "AWAITING_QA" (GetTxID ctx) old) w
  end.
Proof.
  destruct (GetMSPID ctx) eqn:Hm; [|by run; rewrite Hm].
  destruct (ReadAsset ctx id w) eqn:Hr; [|by run; rewrite Hm, Hr].
  run. rewrite Hm, Hr. shape.
Qed.

Lemma CreateQACertify_spec ctx id s r c h w :
  match GetMSPID ctx, ReadAsset ctx id w with
  | Err _, _ => CreateQACertify ctx id s r c h w = (w, Err FailedToGetClientMSPID)
  | Ok _, Err e => CreateQACertify ctx id s r c h w = (w, Err e)
  | Ok _, Ok old =>
      exists ev, Timestamp ev = NowRFC3339 ctx /\
        CreateQACertify ctx id s r c h w
        = write_event_then_asset ctx ev id (updated (qaStage r) (GetTxID ctx) old) w
  end.
Proof.
  destruct (GetMSPID ctx) eqn:Hm; [|by run; rewrite Hm].
  destruct (ReadAsset ctx id w) eqn:Hr; [|by run; rewrite Hm, Hr].
  run. rewrite Hm, Hr. unfold qaStage, updated.
  destruct (String.eqb r "CERTIFIED_FIT_FOR_USE"); shape.
Qed.

Lemma CreateMaterialCertification_spec ctx id a b c d w :
  match GetMSPID ctx, AssetExists ctx id w with
  | Err _, _ => CreateMaterialCertification ctx id a b c d w = (w, Err FailedToGetClientMSPID)
  | Ok _, Err e => CreateMaterialCertification ctx id a b c d w = (w, Err e)
  | Ok _, Ok true =>
      CreateMaterialCertification ctx id a b c d w = (w, Err (AssetAlreadyExists id))
  | Ok m, Ok false =>
      exists ev, Timestamp ev = NowRFC3339 ctx /\
        CreateMaterialCertification ctx id a b c d w
        = write_event_then_asset ctx ev id
            (mkAsset id m "MATERIAL_CERTIFIED" [GetTxID ctx]) w
  end.
Proof.
  destruct (GetMSPID ctx) eqn:Hm; [|by run; rewrite Hm].
  destruct (AssetExists ctx id w) as [[]|] eqn:Hr; try (by run; rewrite Hm, Hr).
  run. rewrite Hm, Hr. shape.
Qed.

Lemma CreatePrintJobStart_spec ctx id a b c d e w :
  match GetMSPID ctx, AssetExists ctx id w with
  | Err _, _ => CreatePrintJobStart ctx id a b c d e w = (w, Err FailedToGetClientMSPID)
  | Ok _, Err err => CreatePrintJobStart ctx id a b c d e w = (w, Err err)
  | Ok _, Ok true =>
      CreatePrintJobStart ctx id a b c d e w = (w, Err (AssetAlreadyExists id))
  | Ok m, Ok false =>
      exists ev, Timestamp ev = NowRFC3339 ctx /\
        CreatePrintJobStart ctx id a b c d e w
        = write_event_then_asset ctx ev id
            (mkAsset id m "IN_PRODUCTION" [GetTxID ctx]) w
  end.
Proof.
  destruct (GetMSPID ctx) eqn:Hm; [|by run; rewrite Hm].
  destruct (AssetExists ctx id w) as [[]|] eqn:Hr; try (by run; rewrite Hm, Hr).
  run. rewrite Hm, Hr. shape.
Qed.

Lemma CreateMaterialCertification_Naive_spec ctx id a b c d w :
  match GetMSPID ctx, AssetExists ctx (naiveAssetID id) w with
  | Err _, _ =>
      CreateMaterialCertification_Naive ctx id a b c d w = (w, Err FailedToGetClientMSPID)
  | Ok _, Err e => CreateMaterialCertification_Naive ctx id a b c d w = (w, Err e)
  | Ok _, Ok true =>
      CreateMaterialCertification_Naive ctx id a b c d w
      = (w, Err (AssetAlreadyExists (naiveAssetID id)))
  | Ok m, Ok false =>
      exists ev, Timestamp ev = NowRFC3339 ctx /\
        CreateMaterialCertification_Naive ctx id a b c d w
        = write_event_then_asset ctx ev (naiveAssetID id)
            (mkAsset (naiveAssetID id) m "MATERIAL_CERTIFIED_NAIVE" [GetTxID ctx]) w
  end.
Proof.
  destruct (GetMSPID ctx) eqn:Hm; [|by run; rewrite Hm].
  destruct (AssetExists ctx (naiveAssetID id) w) as [[]|] eqn:Hr;
    try (by run; rewrite Hm, Hr).
  run. rewrite Hm, Hr. shape.
Qed.

End WriteShapes.

Section WriteOutcomes.

Lemma write_event_then_asset_ok ctx ev key a w w' :
  write_event_then_asset ctx ev key a w = (w', Ok tt) ->
  PutFails ctx ("EVENT_" +:+ GetTxID ctx) = false /\ PutFails ctx key = false /\
  w' = <[key := marshal_asset a]>
         (<["EVENT_" +:+ GetTxID ctx := marshal_event ev]> w).
Proof.
  unfold write_event_then_asset.
  destruct (PutFails ctx ("EVENT_" +:+ GetTxID ctx)); [done|].
  destruct (PutFails ctx key); [done|]. by intros [= <-].
Qed.

Lemma write_event_then_asset_run ctx ev key a w :
  PutFails ctx ("EVENT_" +:+ GetTxID ctx) = false -> PutFails ctx key = false ->
  write_event_then_asset ctx ev key a w
  = (<[key := marshal_asset a]>
       (<["EVENT_" +:+ GetTxID ctx := marshal_event ev]> w), Ok tt).
Proof. unfold write_event_then_asset. by intros -> ->. Qed.

Lemma write_event_then_asset_is_ok ctx ev key a w :
  is_ok (write_event_then_asset ctx ev key a w).2
  = negb (PutFails ctx ("EVENT_" +:+ GetTxID ctx)) && negb (PutFails ctx key).
Proof.
  unfold write_event_then_asset.
  destruct (PutFails ctx ("EVENT_" +:+ GetTxID ctx)); [done|].
  by destruct (PutFails ctx key).
Qed.

Lemma asset_at_insert key a (w : World) :
  asset_at (<[key := marshal_asset a]> w) key = Some a.
Proof.
  unfold asset_at. by rewrite lookup_insert_eq, unmarshal_marshal_asset.
Qed.

Lemma asset_at_written ctx ev key a w w' :
  write_event_then_asset ctx ev key a w = (w', Ok tt) -> asset_at w' key = Some a.
Proof.
  intros H. apply write_event_then_asset_ok in H as (_ & _ & ->).
  apply asset_at_insert.
Qed.

(** A successful update, seen from outside. *)
Lemma CreatePrintJobCompletion_ok ctx id b i h w w' :
  CreatePrintJobCompletion ctx id b i h w = (w', Ok tt) ->
  exists old, ReadAsset ctx id w = Ok old /\
    asset_at w' id = Some (updated "AWAITING_QA" (GetTxID ctx) old).
Proof.
  intros H. pose proof (CreatePrintJobCompletion_spec ctx id b i h w) as S.
  destruct (GetMSPID ctx); [|congruence].
  destruct (ReadAsset ctx id w) as [old|]; [|congruence].
  destruct S as (ev & _ & S). rewrite S in H.
  exists old. split; [done|]. by eapply asset_at_written.
Qed.

Lemma CreateQACertify_ok ctx id s r c h w w' :
  CreateQACertify ctx id s r c h w = (w', Ok tt) ->
  exists old, ReadAsset ctx id w = Ok old /\
    asset_at w' id = Some (updated (qaStage r) (GetTxID ctx) old).
Proof.
  intros H. pose proof (CreateQACertify_spec ctx id s r c h w) as S.
  destruct (GetMSPID ctx); [|congruence].
  destruct (ReadAsset ctx id w) as [old|]; [|congruence].
  destruct S as (ev & _ & S). rewrite S in H.
  exists old. split; [done|]. by eapply asset_at_written.
Qed.

Lemma CreatePrintJobCompletion_accepted ctx id b i h w :
  is_ok (CreatePrintJobCompletion ctx id b i h w).2 = update_accepted ctx id w.
Proof.
  pose proof (CreatePrintJobCompletion_spec ctx id b i h w) as S.
  unfold update_accepted.
  destruct (GetMSPID ctx); [|by rewrite S].
  destruct (ReadAsset ctx id w) as [old|]; [|by rewrite S].
  destruct S as (ev & _ & ->). by rewrite write_event_then_asset_is_ok.
Qed.

Lemma CreateQACertify_accepted ctx id s r c h w :
  is_ok (CreateQACertify ctx id s r c h w).2 = update_accepted ctx id w.
Proof.
  pose proof (CreateQACertify_spec ctx id s r c h w) as S.
  unfold update_accepted.
  destruct (GetMSPID ctx); [|by rewrite S].
  destruct (ReadAsset ctx id w) as [old|]; [|by rewrite S].
  destruct S as (ev & _ & ->). by rewrite write_event_then_asset_is_ok.
Qed.

Lemma is_ok_unit (r : res unit) : is_ok r = true -> r = Ok tt.
Proof. by destruct r as [[]|]. Qed.

Lemma run_pair {A} (m : World * res A) : m = (m.1, m.2).
Proof. by destruct m. Qed.

End WriteOutcomes.

Section Invocations.



(** Every invocation either returns an error before writing anything, or
    runs [write_event_then_asset] on an event stamped with the clock
    reading and an asset whose history is the transaction id alone or the
    history read from the key with the transaction id appended. *)
Lemma invoke_shape ctx c w :
  (exists e, invoke ctx c w = (w, Err e)) \/
  exists ev key a,
    Timestamp ev = NowRFC3339 ctx /\
    invoke ctx c w = write_event_then_asset ctx ev key a w /\
    (HistoryTxIDs a = [GetTxID ctx] \/
     exists old, asset_at w key = Some old /\
                 HistoryTxIDs a = HistoryTxIDs old ++ [GetTxID ctx]).
Proof.
  destruct c as [id a b c d|id a b c d|id a b c d e|id b i h|id s r c h]; simpl.
  - pose proof (CreateMaterialCertification_spec ctx id a b c d w) as S.
    destruct (GetMSPID ctx) as [m|]; [|by left; eexists].
    destruct (AssetExists ctx id w) as [[]|]; try (by left; eexists).
    destruct S as (ev & Ht & S). right. eexists _, _, _.
    split; [exact Ht|]. split; [exact S|by left].
  - pose proof (CreateMaterialCertification_Naive_spec ctx id a b c d w) as S.
    destruct (GetMSPID ctx) as [m|]; [|by left; eexists].
    destruct (AssetExists ctx (naiveAssetID id) w) as [[]|]; try (by left; eexists).
    destruct S as (ev & Ht & S). right. eexists _, _, _.
    split; [exact Ht|]. split; [exact S|by left].
  - pose proof (CreatePrintJobStart_spec ctx id a b c d e w) as S.
    destruct (GetMSPID ctx) as [m|]; [|by left; eexists].
    destruct (AssetExists ctx id w) as [[]|]; try (by left; eexists).
    destruct S as (ev & Ht & S). right. eexists _, _, _.
    split; [exact Ht|]. split; [exact S|by left].
  - pose proof (CreatePrintJobCompletion_spec ctx id b i h w) as S.
    destruct (GetMSPID ctx) as [m|]; [|by left; eexists].
    destruct (ReadAsset ctx id w) as [old|] eqn:Hr; [|by left; eexists].
    destruct S as (ev & Ht & S). right. eexists _, _, _.
    split; [exact Ht|]. split; [exact S|].
    right. exists old. split; [by eapply ReadAsset_asset_at|done].
  - pose proof (CreateQACertify_spec ctx id s r c h w) as S.
    destruct (GetMSPID ctx) as [m|]; [|by left; eexists].
    destruct (ReadAsset ctx id w) as [old|] eqn:Hr; [|by left; eexists].
    destruct S as (ev & Ht & S). right. eexists _, _, _.
    split; [exact Ht|]. split; [exact S|].
    right. exists old. split; [by eapply ReadAsset_asset_at|done].
Qed.


End Invocations.

(** ** Invariants of the reachable world states *)

Section Invariants.

Lemma asset_at_insert_event key ev (w : World) id a :
  asset_at (<[key := marshal_event ev]> w) id = Some a ->
  a = zeroAsset \/ asset_at w id = Some a.
Proof.
  unfold asset_at. destruct (decide (key = id)) as [->|Hne].
  - rewrite lookup_insert_eq, unmarshal_asset_of_event. intros [= <-]. by left.
  - rewrite lookup_insert_ne by done. by right.
Qed.

Lemma asset_at_insert_asset key a' (w : World) id a :
  asset_at (<[key := marshal_asset a']> w) id = Some a ->
  (id = key /\ a = a') \/ asset_at w id = Some a.
Proof.
  destruct (decide (key = id)) as [->|Hne].
  - rewrite asset_at_insert. intros [= <-]. by left.
  - unfold asset_at. rewrite lookup_insert_ne by done. by right.
Qed.

Lemma bound_insert (w : World) key v k :
  is_Some (w !! k) -> is_Some (<[key := v]> w !! k).
Proof.
  intros H. destruct (decide (key = k)) as [->|Hne].
  - rewrite lookup_insert_eq. by eexists.
  - by rewrite lookup_insert_ne.
Qed.

Lemma history_bound_insert_event key ev w :
  history_bound w -> history_bound (<[key := marshal_event ev]> w).
Proof.
  intros Hw id a tx Hat Hin.
  apply asset_at_insert_event in Hat as [-> | Hat].
  - by apply elem_of_nil in Hin.
  - apply bound_insert. by eapply Hw.
Qed.

Lemma history_bound_write ctx ev key a w :
  history_bound w ->
  (HistoryTxIDs a = [GetTxID ctx] \/
   exists old, asset_at w key = Some old /\
               HistoryTxIDs a = HistoryTxIDs old ++ [GetTxID ctx]) ->
  history_bound (write_event_then_asset ctx ev key a w).1.
Proof.
  intros Hw Hh. unfold write_event_then_asset.
  destruct (PutFails ctx ("EVENT_" +:+ GetTxID ctx)); [done|].
  destruct (PutFails ctx key); simpl; [by apply history_bound_insert_event|].
  intros id a0 tx Hat Hin.
  apply asset_at_insert_asset in Hat as [[-> ->] | Hat].
  - apply bound_insert.
    destruct Hh as [Hh | (old & Hold & Hh)]; rewrite Hh in Hin.
    + apply list_elem_of_singleton in Hin as ->.
      rewrite lookup_insert_eq. by eexists.
    + apply elem_of_app in Hin as [Hin | Hin].
      * apply bound_insert. by eapply Hw.
      * apply list_elem_of_singleton in Hin as ->.
        rewrite lookup_insert_eq. by eexists.
  - apply bound_insert. by eapply (history_bound_insert_event _ ev w Hw).
Qed.

Lemma chaincode_written_write ctx ev key a w :
  chaincode_written w -> chaincode_written (write_event_then_asset ctx ev key a w).1.
Proof.
  intros Hw. unfold write_event_then_asset.
  assert (Hev : chaincode_written
                  (<["EVENT_" +:+ GetTxID ctx := marshal_event ev]> w)).
  { intros k v. destruct (decide ("EVENT_" +:+ GetTxID ctx = k)) as [->|Hne].
    - rewrite lookup_insert_eq. intros [= <-]. left. by eexists.
    - rewrite lookup_insert_ne by done. apply Hw. }
  destruct (PutFails ctx ("EVENT_" +:+ GetTxID ctx)); [done|].
  destruct (PutFails ctx key); simpl; [done|].
  intros k v. destruct (decide (key = k)) as [->|Hne].
  - rewrite lookup_insert_eq. intros [= <-]. right. by eexists.
  - rewrite lookup_insert_ne by done. apply Hev.
Qed.

Lemma reachable_invariants w :
  reachable w -> history_bound w /\ chaincode_written w.
Proof.
  induction 1 as [|w ctx c _ [IHb IHw]].
  - split.
    + intros id a tx Hat. unfold asset_at in Hat. by rewrite lookup_empty in Hat.
    + intros k v Hk. by rewrite lookup_empty in Hk.
  - destruct (invoke_shape ctx c w) as [[e ->] | (ev & key & a & _ & -> & Hh)]; [done|].
    split; [by apply history_bound_write|by apply chaincode_written_write].
Qed.

Lemma invoke_all_reachable calls w :
  reachable w -> reachable (invoke_all calls w).1.
Proof.
  revert w. induction calls as [|[ctx c] rest IH]; intros w Hw; [done|].
  simpl. unfold bind.
  pose proof (reachable_invoke w ctx c Hw) as H1.
  destruct (invoke ctx c w) as [w1 [[]|e]]; simpl in *; [by apply IH|done].
Qed.

Lemma chaincode_written_decodes w key v :
  chaincode_written w -> w !! key = Some v -> exists event, unmarshal_event v = Ok event.
Proof.
  intros Hw Hk. destruct (Hw key v Hk) as [[e ->] | [a ->]].
  - exists e. apply unmarshal_marshal_event.
  - exists zeroEvent. apply unmarshal_event_of_asset.
Qed.

End Invariants.

(** ** Key namespaces *)

Section Keys.

Lemma length_append (s t : string) :
  String.length (s +:+ t) = String.length s + String.length t.
Proof. induction s as [|c s IH]; simpl; [done|]. by rewrite IH. Qed.

Lemma naiveAssetID_neq id : naiveAssetID id <> id.
Proof.
  intros H. apply (f_equal String.length) in H.
  unfold naiveAssetID in H. rewrite length_append in H. simpl in H. lia.
Qed.

Lemma naiveAssetID_prefix id : String.prefix "NAIVE_" (naiveAssetID id) = true.
Proof. simpl. by destruct id. Qed.

Lemma unprefixed_neq_naive l n :
  String.prefix "NAIVE_" l = false -> l <> naiveAssetID n.
Proof. intros H ->. by rewrite naiveAssetID_prefix in H. Qed.

Lemma event_key_neq_naive txID n : "EVENT_" +:+ txID <> naiveAssetID n.
Proof. done. Qed.

Lemma write_event_then_asset_other ctx ev key a w k :
  k <> "EVENT_" +:+ GetTxID ctx -> k <> key ->
  (write_event_then_asset ctx ev key a w).1 !! k = w !! k.
Proof.
  intros H1 H2. unfold write_event_then_asset.
  destruct (PutFails ctx ("EVENT_" +:+ GetTxID ctx)); [done|].
  destruct (PutFails ctx key); simpl.
  - by rewrite lookup_insert_ne.
  - by rewrite !lookup_insert_ne.
Qed.

End Keys.

(** ** Uniqueness of asset keys *)

Section Uniqueness.

(** C2.  When the key a creation function is about to write is already
    bound, the call returns an error and leaves the world state as it was
    (no event is written, the stored record is untouched); when the caller
    identity is available and the read of the key does not fail, that error
    is "the asset ... already exists".  This holds for
    [CreateMaterialCertification], [CreatePrintJobStart] and, on the derived
    key, [CreateMaterialCertification_Naive]. *)
Theorem duplicate_creation_rejected (w : World) (key : string) (v : bytes) :
  w !! key = Some v ->
  forall ctx : Ctx,
    (forall a b c d,
       rejected_as_duplicate ctx key w
         (CreateMaterialCertification ctx key a b c d w)) /\
    (forall a b c d e,
       rejected_as_duplicate ctx key w (CreatePrintJobStart ctx key a b c d e w)) /\
    (forall id a b c d, naiveAssetID id = key ->
       rejected_as_duplicate ctx key w
         (CreateMaterialCertification_Naive ctx id a b c d w)).
Proof.
  intros Hv ctx.
  assert (Hex := AssetExists_bound ctx key w v Hv).
  assert (Hok := AssetExists_bound_ok ctx key w v Hv).
  unfold rejected_as_duplicate, refused; repeat split; intros; subst; run;
    simpl in *; destruct (GetMSPID ctx); simpl in *; try done;
    try (destruct Hex as [-> | ->]; done);
    try (rewrite Hok by done; done).
Qed.

Lemma duplicate_creation_rejected_witness :
  let ctx := healthy "tx1" "Org2MSP" "2024-05-02T10:00:00Z" in
  CreateMaterialCertification ctx "A1" "Ti6Al4V" "POWDER-2" "SupplierCorpMSP" "h2" ledgerA1
    = (ledgerA1, Err (AssetAlreadyExists "A1")) /\
  CreatePrintJobStart ctx "A1" "M1" "POWDER-1" "d" "JOB-1" "h3" ledgerA1
    = (ledgerA1, Err (AssetAlreadyExists "A1")).
Proof.
  intros ctx.
  assert (Hb : ledgerA1 !! "A1" = Some (marshal_asset
            (mkAsset "A1" "Org1MSP" "MATERIAL_CERTIFIED" ["tx0"])))
    by (vm_compute; reflexivity).
  destruct (duplicate_creation_rejected ledgerA1 "A1" _ Hb ctx) as (H1 & H2 & _).
  split.
  - apply H1; reflexivity.
  - apply H2; reflexivity.
Defined.

End Uniqueness.

(** ** History reconstruction *)

Section History.

(** C10.  [GetAssetHistory] returns an error exactly when [ReadAsset] does,
    and then the same one; [ReadAsset] fails exactly when the read of the
    asset key fails, the key is absent, or the record does not decode.  For
    a readable asset none of whose history entries resolves, the result is
    the empty history and no error. *)
Theorem GetAssetHistory_error_iff_ReadAsset (ctx : Ctx) (assetID : string) (w : World) :
  (forall e, (GetAssetHistory ctx assetID w).1 = Err e <-> ReadAsset ctx assetID w = Err e) /\
  (is_ok (ReadAsset ctx assetID w) = false <->
     GetFails ctx assetID = true \/ w !! assetID = None \/
     exists v, w !! assetID = Some v /\ is_ok (unmarshal_asset v) = false) /\
  (forall a, ReadAsset ctx assetID w = Ok a ->
     Forall (fun txID => resolve ctx w txID = None) (HistoryTxIDs a) ->
     (GetAssetHistory ctx assetID w).1 = Ok []).
Proof.
  rewrite GetAssetHistory_spec. repeat split.
  - destruct (ReadAsset ctx assetID w); simpl; congruence.
  - destruct (ReadAsset ctx assetID w); simpl; congruence.
  - unfold ReadAsset, GetState.
    destruct (GetFails ctx assetID); [by left|].
    destruct (w !! assetID) as [v|]; [|by right; left].
    intros H. right; right. by exists v.
  - unfold ReadAsset, GetState.
    intros [H | [H | (v & Hv & H)]].
    + by rewrite H.
    + rewrite H. by destruct (GetFails ctx assetID).
    + rewrite Hv. by destruct (GetFails ctx assetID).
  - intros a -> Hall. simpl. by rewrite omap_all_none.
Qed.

(** C3.  Let the asset be readable and let entry [k] be the one entry of
    its history that does not resolve (absent event, failed read or record
    that does not decode).  Then [GetAssetHistory] returns no error, and
    returns the events of the other entries, in the order of the history:
    one event less than there are entries.  One warning is printed. *)
Theorem GetAssetHistory_skips_one (ctx : Ctx) (assetID : string) (w : World)
    (a : Asset) (k : nat) :
  ReadAsset ctx assetID w = Ok a ->
  k < length (HistoryTxIDs a) ->
  (forall i txID, HistoryTxIDs a !! i = Some txID ->
     (resolve ctx w txID = None <-> i = k)) ->
  exists history,
    GetAssetHistory ctx assetID w = (Ok history, omap (warned ctx w) (HistoryTxIDs a)) /\
    length history = length (HistoryTxIDs a) - 1 /\
    Forall2 (fun txID event => resolve ctx w txID = Some event)
            (delete k (HistoryTxIDs a)) history /\
    length (omap (warned ctx w) (HistoryTxIDs a)) = 1.
Proof.
  intros Hread Hk Hone.
  rewrite GetAssetHistory_spec, Hread.
  set (h := HistoryTxIDs a) in *.
  destruct (lookup_lt_is_Some_2 h k Hk) as [bad Hbad].
  assert (Hsplit : h = take k h ++ bad :: drop (S k) h)
    by (symmetry; by apply take_drop_middle).
  assert (Hbadnone : resolve ctx w bad = None) by (by apply (Hone k)).
  assert (Hl : Forall (fun x => is_Some (resolve ctx w x)) (take k h)).
  { apply Forall_lookup_2. intros i x Hx.
    apply lookup_take_Some in Hx as [Hx Hi].
    destruct (resolve ctx w x) eqn:E; [by eexists|].
    apply (Hone i x Hx) in E. lia. }
  assert (Hr : Forall (fun x => is_Some (resolve ctx w x)) (drop (S k) h)).
  { apply Forall_lookup_2. intros i x Hx.
    rewrite lookup_drop in Hx.
    destruct (resolve ctx w x) eqn:E; [by eexists|].
    apply (Hone _ x Hx) in E. lia. }
  assert (Hdel : delete k h = take k h ++ drop (S k) h) by apply delete_take_drop.
  assert (Hom : omap (resolve ctx w) h
                = omap (resolve ctx w) (take k h) ++ omap (resolve ctx w) (drop (S k) h)).
  { rewrite Hsplit at 1. rewrite omap_app. simpl. by rewrite Hbadnone. }
  assert (F2 : Forall2 (fun txID event => resolve ctx w txID = Some event)
                 (delete k h) (omap (resolve ctx w) h)).
  { rewrite Hdel, Hom. apply Forall2_app; by apply omap_all_some. }
  eexists. split; [reflexivity|]. split; [|split; [exact F2|]].
  - apply Forall2_length in F2. rewrite <- F2, length_delete; [lia|].
    by rewrite Hbad.
  - assert (Hw : forall l, Forall (fun x => is_Some (resolve ctx w x)) l ->
                           omap (warned ctx w) l = []).
    { intros l Hall. apply omap_all_none. eapply Forall_impl; [exact Hall|].
      intros x [e He]. destruct (warned ctx w x) eqn:E; [|done].
      assert (is_Some (warned ctx w x)) as Hs by (by eexists).
      apply warned_iff in Hs. congruence. }
    change (bad :: drop (S k) h) with ([bad] ++ drop (S k) h) in Hsplit.
    rewrite Hsplit, !omap_app, (Hw _ Hl), (Hw _ Hr). simpl.
    destruct (warned ctx w bad) eqn:E; [done|].
    apply warned_iff in Hbadnone. rewrite E in Hbadnone. by destruct Hbadnone.
Qed.

Lemma GetAssetHistory_skips_one_witness :
  exists history,
    GetAssetHistory flakyReader "P1" ledgerP1
      = (Ok history, [CouldNotRetrieveEvent "tx2"]) /\
    length history = 2.
Proof.
  destruct (GetAssetHistory_skips_one flakyReader "P1" ledgerP1
              (mkAsset "P1" "Org1MSP" "CERTIFIED" ["tx1"; "tx2"; "tx3"]) 1)
    as (history & Hrun & Hlen & _).
  - vm_compute. reflexivity.
  - simpl. lia.
  - intros i txID. destruct i as [|[|[|i]]]; simpl; intros [= <-];
      vm_compute; split; intros H; try discriminate H; try reflexivity; lia.
  - exists history. split; [exact Hrun|exact Hlen].
Defined.

Lemma GetAssetHistory_error_iff_ReadAsset_witness :
  (GetAssetHistory flakyReader "P9" ledgerP1).1 = Err (AssetDoesNotExist "P9").
Proof.
  destruct (GetAssetHistory_error_iff_ReadAsset flakyReader "P9" ledgerP1) as [H _].
  apply H. vm_compute. reflexivity.
Defined.

End History.

(** ** Lifecycle stages *)

Section Stages.

(** C1, the claim as written fails: [P1] is [CERTIFIED], a terminal stage,
    and [CreatePrintJobCompletion] on it is accepted and puts it back to
    [AWAITING_QA]; [A1] is [MATERIAL_CERTIFIED] and [CreateQACertify] on it
    is accepted and makes it [CERTIFIED]. *)
Lemma update_from_wrong_stage_accepted :
  let ctx := healthy "tx4" "Org1MSP" "2024-05-03T10:00:00Z" in
  (asset_at ledgerP1 "P1"
     = Some (mkAsset "P1" "Org1MSP" "CERTIFIED" ["tx1"; "tx2"; "tx3"]) /\
   exists w', CreatePrintJobCompletion ctx "P1" "JOB-1" "PASS" "h4" ledgerP1 = (w', Ok tt) /\
     asset_at w' "P1"
     = Some (mkAsset "P1" "Org1MSP" "AWAITING_QA" ["tx1"; "tx2"; "tx3"; "tx4"])) /\
  (asset_at ledgerA1 "A1" = Some (mkAsset "A1" "Org1MSP" "MATERIAL_CERTIFIED" ["tx0"]) /\
   exists w', CreateQACertify ctx "A1" "ASTM-F2924" "CERTIFIED_FIT_FOR_USE" "CERT-9" "h5"
                ledgerA1 = (w', Ok tt) /\
     asset_at w' "A1" = Some (mkAsset "A1" "Org1MSP" "CERTIFIED" ["tx0"; "tx4"])).
Proof.
  intros ctx. split; (split; [vm_compute; reflexivity|]).
  - eexists. split; [apply run_pair|]. vm_compute. reflexivity.
  - eexists. split; [apply run_pair|]. vm_compute. reflexivity.
Qed.

(** C1, amended.  Neither update function looks at the current stage.
    [CreatePrintJobCompletion] and [CreateQACertify] are accepted exactly
    when the caller identity is available, the asset is read and decoded and
    the two writes succeed; when accepted on an asset [old], in whatever
    stage, the stored asset becomes [old] with the stage set to
    [AWAITING_QA], respectively to [CERTIFIED] or [REJECTED], and the
    transaction id appended to its history. *)
Theorem update_ignores_current_stage (ctx : Ctx) (id : string) (w : World) :
  (forall b i h,
     is_ok (CreatePrintJobCompletion ctx id b i h w).2 = update_accepted ctx id w) /\
  (forall s r c h,
     is_ok (CreateQACertify ctx id s r c h w).2 = update_accepted ctx id w) /\
  (forall old, ReadAsset ctx id w = Ok old -> update_accepted ctx id w = true ->
     (forall b i h,
        asset_at (CreatePrintJobCompletion ctx id b i h w).1 id
        = Some (updated "AWAITING_QA" (GetTxID ctx) old)) /\
     (forall s r c h,
        asset_at (CreateQACertify ctx id s r c h w).1 id
        = Some (updated (qaStage r) (GetTxID ctx) old))).
Proof.
  split; [|split].
  - intros. apply CreatePrintJobCompletion_accepted.
  - intros. apply CreateQACertify_accepted.
  - intros old Hread Hacc. split; intros.
    + pose proof (CreatePrintJobCompletion_accepted ctx id b i h w) as Ha.
      rewrite Hacc in Ha. apply is_ok_unit in Ha.
      destruct (CreatePrintJobCompletion_ok ctx id b i h w
                  (CreatePrintJobCompletion ctx id b i h w).1) as (old' & Hr' & Hat).
      { rewrite <- Ha. apply run_pair. }
      congruence.
    + pose proof (CreateQACertify_accepted ctx id s r c h w) as Ha.
      rewrite Hacc in Ha. apply is_ok_unit in Ha.
      destruct (CreateQACertify_ok ctx id s r c h w
                  (CreateQACertify ctx id s r c h w).1) as (old' & Hr' & Hat).
      { rewrite <- Ha. apply run_pair. }
      congruence.
Qed.

Lemma update_ignores_current_stage_witness :
  let ctx := healthy "tx4" "Org1MSP" "2024-05-03T10:00:00Z" in
  asset_at (CreatePrintJobCompletion ctx "P1" "JOB-1" "PASS" "h4" ledgerP1).1 "P1"
  = Some (updated "AWAITING_QA" "tx4"
            (mkAsset "P1" "Org1MSP" "CERTIFIED" ["tx1"; "tx2"; "tx3"])).
Proof.
  intros ctx.
  destruct (update_ignores_current_stage ctx "P1" ledgerP1) as (_ & _ & H).
  destruct (H (mkAsset "P1" "Org1MSP" "CERTIFIED" ["tx1"; "tx2"; "tx3"])) as [Hc _].
  - vm_compute. reflexivity.
  - vm_compute. reflexivity.
  - apply Hc.
Defined.

End Stages.

Section QA.

(** C7.  On an asset in stage [AWAITING_QA], with a context in which
    nothing fails, [CreateQACertify] is accepted and the stored stage is
    [CERTIFIED] exactly when the test result is the string
    [CERTIFIED_FIT_FOR_USE], and [REJECTED] for every other string. *)
Theorem CreateQACertify_stage (ctx : Ctx) (id : string) (w : World) (old : Asset)
    (testStandard testResult certificateID offChainDataHash : string) :
  ReadAsset ctx id w = Ok old ->
  CurrentLifecycleStage old = "AWAITING_QA" ->
  is_ok (GetMSPID ctx) = true ->
  PutFails ctx ("EVENT_" +:+ GetTxID ctx) = false ->
  PutFails ctx id = false ->
  exists w' new,
    CreateQACertify ctx id testStandard testResult certificateID offChainDataHash w
      = (w', Ok tt) /\
    asset_at w' id = Some new /\
    (CurrentLifecycleStage new = "CERTIFIED" <-> testResult = "CERTIFIED_FIT_FOR_USE") /\
    (CurrentLifecycleStage new = "REJECTED" <-> testResult <> "CERTIFIED_FIT_FOR_USE").
Proof.
  intros Hread _ Hm He Ha.
  pose proof (CreateQACertify_spec ctx id testStandard testResult certificateID
                offChainDataHash w) as S.
  destruct (GetMSPID ctx); [|done]. rewrite Hread in S.
  destruct S as (ev & _ & S).
  rewrite write_event_then_asset_run in S by done.
  eexists _, _. split; [exact S|]. split; [apply asset_at_insert|].
  unfold updated, qaStage. simpl.
  destruct (String.eqb_spec testResult "CERTIFIED_FIT_FOR_USE"); split; split;
    intros; try done; congruence.
Qed.

Lemma CreateQACertify_stage_witness :
  let ctx := healthy "tx3" "Org2MSP" "2024-05-01T13:00:00Z" in
  exists w' new,
    CreateQACertify ctx "P1" "ASTM-F2924" "" "CERT-1" "h3" ledgerAwaitingQA = (w', Ok tt) /\
    asset_at w' "P1" = Some new /\
    (CurrentLifecycleStage new = "CERTIFIED" <-> "" = "CERTIFIED_FIT_FOR_USE") /\
    (CurrentLifecycleStage new = "REJECTED" <-> "" <> "CERTIFIED_FIT_FOR_USE").
Proof.
  intros ctx.
  apply (CreateQACertify_stage ctx "P1" ledgerAwaitingQA
           (mkAsset "P1" "Org1MSP" "AWAITING_QA" ["tx1"; "tx2"]));
    vm_compute; reflexivity.
Defined.

End QA.

(** ** Append-only history *)

Section AppendOnly.



End AppendOnly.

(** ** History entries resolve *)

Section Resolution.

(** The record a history entry resolves to need not be the event that was
    recorded for it: an update called with the event key of [tx1] as its
    asset id reads that event as a zero [Asset] and stores an asset under
    the key, after which the first entry of the history of [P1] decodes to
    the zero event. *)
Remark event_record_replaced_by_asset :
  let ctx := healthy "tx6" "Org3MSP" "2024-05-06T10:00:00Z" in
  let w := (CreatePrintJobCompletion ctx "EVENT_tx1" "JOB-X" "PASS" "h6" ledgerP1).1 in
  asset_at w "EVENT_tx1" = Some (mkAsset "" "" "AWAITING_QA" ["tx6"]) /\
  resolve ctx w "tx1" = Some zeroEvent /\
  resolve ctx ledgerP1 "tx1" <> Some zeroEvent.
Proof.
  split; [|split].
  - vm_compute. reflexivity.
  - vm_compute. reflexivity.
  - vm_compute. discriminate.
Qed.

End Resolution.

(** ** Lightweight and naive keys *)

Section Namespaces.

(** C8, the claim as written fails: the lightweight function takes the
    caller's id as the key, so the lightweight id ["NAIVE_A"] and the naive
    id ["A"] give the same asset key, and after the lightweight creation
    the naive one is refused with "already exists". *)
Lemma naive_key_collision :
  naiveAssetID "A" = "NAIVE_A" /\
  asset_at ledgerPrefixed "NAIVE_A"
    = Some (mkAsset "NAIVE_A" "Org1MSP" "MATERIAL_CERTIFIED" ["tx7"]) /\
  CreateMaterialCertification_Naive
    (healthy "tx8" "Org1MSP" "2024-05-04T11:00:00Z")
    "A" "Ti6Al4V" "POWDER-8" "SupplierCorpMSP" "payload" ledgerPrefixed
  = (ledgerPrefixed, Err (AssetAlreadyExists "NAIVE_A")).
Proof. repeat split; vm_compute; reflexivity. Qed.

(** C8, amended.  The naive key of an id differs from that id, and a
    lightweight id that does not begin with ["NAIVE_"] differs from every
    naive key.  For such an id, a lightweight creation
    ([CreateMaterialCertification] or [CreatePrintJobStart]) leaves every
    naive asset key as it was, and a naive creation leaves the lightweight
    key as it was unless that key is the event key of the transaction. *)
Theorem naive_keys_apart_from_unprefixed_ids :
  (forall id, naiveAssetID id <> id) /\
  (forall lightID naiveID,
     String.prefix "NAIVE_" lightID = false -> lightID <> naiveAssetID naiveID) /\
  (forall ctx lightID naiveID w,
     String.prefix "NAIVE_" lightID = false ->
     (forall a b c d,
        (CreateMaterialCertification ctx lightID a b c d w).1 !! naiveAssetID naiveID
        = w !! naiveAssetID naiveID) /\
     (forall a b c d e,
        (CreatePrintJobStart ctx lightID a b c d e w).1 !! naiveAssetID naiveID
        = w !! naiveAssetID naiveID) /\
     (forall a b c d,
        lightID <> "EVENT_" +:+ GetTxID ctx ->
        (CreateMaterialCertification_Naive ctx naiveID a b c d w).1 !! lightID
        = w !! lightID)).
Proof.
  split; [exact naiveAssetID_neq|]. split; [exact unprefixed_neq_naive|].
  intros ctx l n w Hl.
  pose proof (unprefixed_neq_naive l n Hl) as Hne.
  split; [|split]; intros.
  - pose proof (CreateMaterialCertification_spec ctx l a b c d w) as S.
    destruct (GetMSPID ctx); [|by rewrite S].
    destruct (AssetExists ctx l w) as [[]|]; try (by rewrite S).
    destruct S as (ev & _ & ->).
    apply write_event_then_asset_other; [|done].
    intros E. symmetry in E. by apply event_key_neq_naive in E.
  - pose proof (CreatePrintJobStart_spec ctx l a b c d e w) as S.
    destruct (GetMSPID ctx); [|by rewrite S].
    destruct (AssetExists ctx l w) as [[]|]; try (by rewrite S).
    destruct S as (ev & _ & ->).
    apply write_event_then_asset_other; [|done].
    intros E. symmetry in E. by apply event_key_neq_naive in E.
  - pose proof (CreateMaterialCertification_Naive_spec ctx n a b c d w) as S.
    destruct (GetMSPID ctx); [|by rewrite S].
    destruct (AssetExists ctx (naiveAssetID n) w) as [[]|]; try (by rewrite S).
    destruct S as (ev & _ & ->).
    by apply write_event_then_asset_other.
Qed.

Lemma naive_keys_apart_from_unprefixed_ids_witness :
  "TPS_1_0" <> naiveAssetID "TPS_1_0" /\
  (CreateMaterialCertification (healthy "tx9" "Org1MSP" "2024-05-04T12:00:00Z")
     "TPS_1_0" "TPS-Mat" "TPS-Batch-0" "TPS-Supplier" "h" ledgerPrefixed).1
    !! naiveAssetID "A"
  = ledgerPrefixed !! naiveAssetID "A".
Proof.
  destruct naive_keys_apart_from_unprefixed_ids as (_ & H2 & H3).
  split.
  - apply H2. reflexivity.
  - apply H3. reflexivity.
Defined.

End Namespaces.

(** ** The throughput driver: fail-fast batches *)

Module HarnessFacts.
Import Harness.

Section Batches.

Variable env : Env.
Variable txs : list Transaction.
Variable c : nat.
Hypothesis c_pos : 0 < c.

Lemma forallb_seq (f : nat -> bool) i m :
  forallb f (seq i m) = true <-> forall k, i <= k < i + m -> f k = true.
Proof.
  rewrite forallb_forall. split.
  - intros H k Hk. apply H, in_seq. lia.
  - intros H k Hk%in_seq. apply H. lia.
Qed.

Lemma chunk_length i :
  length (take c (drop i txs)) = Nat.min c (length txs - i).
Proof. by rewrite length_take, length_drop. Qed.

(** Every call from [i] on resolves: the loop issues all of them. *)
Lemma submitBatches_completes fuel i sent :
  length txs - i < fuel ->
  (forall k, i <= k < length txs -> submitOk env k = true) ->
  submitBatches env fuel txs c i sent = Some (Completed, sent ++ drop i txs).
Proof.
  revert i sent. induction fuel as [|fuel IH]; intros i sent Hfuel Hok; [lia|].
  simpl. destruct (Nat.ltb_spec i (length txs)) as [Hi|Hi].
  - assert (Hall : forallb (submitOk env) (seq i (length (take c (drop i txs)))) = true).
    { apply forallb_seq. intros k Hk. rewrite chunk_length in Hk. apply Hok. lia. }
    rewrite Hall, IH; [|lia|intros; apply Hok; lia].
    rewrite <- app_assoc. do 2 f_equal.
    rewrite <- (take_drop c (drop i txs)) at 2.
    by rewrite drop_drop.
  - rewrite drop_ge by lia. by rewrite app_nil_r.
Qed.

(** Call [j] is the first one from [i] on that fails: the loop stops after
    the batch of [j], having issued the calls up to the end of that batch. *)
Lemma submitBatches_throws fuel i sent j :
  length txs - i < fuel ->
  i <= j < length txs ->
  submitOk env j = false ->
  (forall k, i <= k < j -> submitOk env k = true) ->
  submitBatches env fuel txs c i sent
  = Some (Thrown, sent ++ take (((j - i) / c + 1) * c) (drop i txs)).
Proof.
  revert i sent. induction fuel as [|fuel IH]; intros i sent Hfuel Hj Hbad Hok; [lia|].
  simpl. destruct (Nat.ltb_spec i (length txs)) as [Hi|Hi]; [|lia].
  destruct (forallb (submitOk env) (seq i (length (take c (drop i txs))))) eqn:Hall.
  - rewrite forallb_seq in Hall. rewrite chunk_length in Hall.
    assert (i + c <= j) as Hic.
    { destruct (le_lt_dec (i + c) j) as [|Hlt]; [done|].
      rewrite Hall in Hbad; [done|lia]. }
    rewrite (IH (i + c) _); [|lia|lia|done|intros; apply Hok; lia].
    rewrite <- app_assoc.
    replace (j - i) with ((j - (i + c)) + 1 * c) by lia.
    rewrite Nat.div_add by lia.
    replace (((j - (i + c)) / c + 1 + 1) * c)
      with (c + ((j - (i + c)) / c + 1) * c) by lia.
    by rewrite <- take_take_drop, drop_drop.
  - assert (j < i + c) as Hjc.
    { destruct (le_lt_dec (i + c) j) as [Hle|]; [|done].
      assert (forallb (submitOk env) (seq i (length (take c (drop i txs)))) = true)
        as Hn; [|congruence].
      apply forallb_seq. intros k Hk. rewrite chunk_length in Hk. apply Hok. lia. }
    rewrite Nat.div_small by lia. simpl. by rewrite Nat.add_0_r.
Qed.

End Batches.

Lemma buildTransactions_spec env payloadSize n i acc :
  buildTransactions env payloadSize n i acc
  = acc ++ map (transaction env payloadSize) (seq i n).
Proof.
  revert i acc. induction n as [|n IH]; intros i acc; simpl.
  - by rewrite app_nil_r.
  - rewrite IH. by rewrite <- app_assoc.
Qed.

Lemma buildTransactions_length env payloadSize n :
  length (buildTransactions env payloadSize n 0 []) = n.
Proof. rewrite buildTransactions_spec. simpl. by rewrite length_map, length_seq. Qed.

(** Among the calls that fail there is a first one. *)
Lemma first_failure (f : nat -> bool) n :
  (exists j, j < n /\ f j = false) ->
  exists j, j < n /\ f j = false /\ forall k, k < j -> f k = true.
Proof.
  assert (Hcases : (forall k, k < n -> f k = true) \/
            exists j, j < n /\ f j = false /\ forall k, k < j -> f k = true).
  { induction n as [|n [IH | (j & Hj & Hf & Hmin)]].
    - left. lia.
    - destruct (f n) eqn:Hn.
      + left. intros k Hk. destruct (decide (k = n)) as [->|]; [done|].
        apply IH. lia.
      + right. exists n. split; [lia|]. by split.
    - right. exists j. split; [lia|]. by split. }
  intros (j & Hj & Hf). destruct Hcases as [Hall | Hex]; [|done].
  rewrite Hall in Hf; done.
Qed.

(** With [concurrency] equal to 0 the loop index never moves: on a non-empty
    array the function does not return. *)
Lemma zero_concurrency_never_returns env fuel payloadSize txCount :
  0 < txCount -> testThroughput env fuel payloadSize txCount 0 = None.
Proof.
  intros Hn. unfold testThroughput.
  pose proof (buildTransactions_length env payloadSize txCount) as Hlen.
  set (txs := buildTransactions env payloadSize txCount 0 []) in *.
  assert (H : forall sent, submitBatches env fuel txs 0 0 sent = None); [|by rewrite H].
  induction fuel as [|fuel IH]; intros sent; [done|].
  simpl. destruct (Nat.ltb_spec 0 (length txs)); [|lia].
  rewrite take_0. simpl. apply IH.
Qed.

(** C9.  Let the batch width be positive (and the fuel exceed the number of
    calls, so that the loop is run to its end).  If some call fails, then
    with [b] the first batch that holds a failing call, the calls issued
    are those of the batches up to and including [b] and no later one, and
    the function returns 0.  If every call resolves, every call is issued
    and the function returns the call count divided by the elapsed seconds,
    the elapsed time being the difference of the two clock readings in whole
    milliseconds, divided by 1000. *)
Theorem throughput_is_fail_fast (env : Env) (fuel : nat) (payloadSize : N)
    (txCount concurrency : nat) :
  0 < concurrency ->
  txCount < fuel ->
  let transactions := buildTransactions env payloadSize txCount 0 [] in
  ((exists j, j < txCount /\ submitOk env j = false) ->
   exists b,
     (exists j, b * concurrency <= j < (b + 1) * concurrency /\ j < txCount /\
                submitOk env j = false) /\
     (forall k, k < b * concurrency -> submitOk env k = true) /\
     testThroughput env fuel payloadSize txCount concurrency
     = Some (Number 0, take ((b + 1) * concurrency) transactions)) /\
  ((forall j, j < txCount -> submitOk env j = true) ->
   testThroughput env fuel payloadSize txCount concurrency
   = Some (div (Number (Z.of_nat txCount))
               (div (Number (Z.quot (endTime env - startTime env) 1000000))
                    (Number 1000)),
           transactions)).
Proof.
  intros Hc Hfuel transactions.
  pose proof (buildTransactions_length env payloadSize txCount) as Hlen.
  fold transactions in Hlen. unfold testThroughput. fold transactions.
  split.
  - intros Hex. apply first_failure in Hex as (j & Hj & Hbad & Hmin).
    exists (j / concurrency).
    pose proof (Nat.div_mod_eq j concurrency) as Hdm.
    pose proof (Nat.mod_upper_bound j concurrency ltac:(lia)) as Hmod.
    split; [exists j; split; [nia|done]|].
    split; [intros k Hk; apply Hmin; nia|].
    rewrite (submitBatches_throws env transactions concurrency Hc fuel 0 [] j);
      [|lia|lia|done|intros; apply Hmin; lia].
    by rewrite Nat.sub_0_r.
  - intros Hall.
    rewrite (submitBatches_completes env transactions concurrency Hc fuel 0 []);
      [done|lia|intros; apply Hall; lia].
Qed.

Lemma throughput_is_fail_fast_witness :
  (exists b,
     testThroughput failingRun 10 0 5 2
     = Some (Number 0, take ((b + 1) * 2) (buildTransactions failingRun 0 5 0 []))) /\
  testThroughput cleanRun 10 0 5 2
  = Some (div (Number 5) (div (Number 2500) (Number 1000)),
          buildTransactions cleanRun 0 5 0 []) /\
  testThroughput_fixed cleanRun 101 (10 * 1024)
  = Some (div (Number 100) (div (Number 2500) (Number 1000)),
          buildTransactions cleanRun (10 * 1024) 100 0 []).
Proof.
  split; [|split].
  - destruct (throughput_is_fail_fast failingRun 10 0 5 2) as [H _]; [lia|lia|].
    destruct H as (b & _ & _ & Hb).
    { exists 2. split; [lia|reflexivity]. }
    exists b. exact Hb.
  - destruct (throughput_is_fail_fast cleanRun 10 0 5 2) as [_ H]; [lia|lia|].
    apply H. reflexivity.
  - destruct (throughput_is_fail_fast cleanRun 101 (10 * 1024) 100 10) as [_ H];
      [lia|lia|].
    apply H. reflexivity.
Defined.

End HarnessFacts.

(** * Further properties of the chaincode *)

Section ErrorPaths.

Lemma into_string_error old v e : into_string old v = Err e -> e = UnmarshalError.
Proof. destruct v; simpl; congruence. Qed.

Lemma into_strings_error l e : into_strings l = Err e -> e = UnmarshalError.
Proof.
  induction l as [|v l IH]; simpl; [done|].
  destruct (into_string "" v) eqn:E1; simpl.
  - destruct (into_strings l); simpl; [done|]. intros [= <-]. by apply IH.
  - intros [= <-]. by eapply into_string_error.
Qed.

Lemma asset_member_error a m e : asset_member a m = Err e -> e = UnmarshalError.
Proof.
  destruct m as [k v]. unfold asset_member.
  repeat match goal with
         | |- context [key_is ?x ?y] => destruct (key_is x y)
         end; try done;
    try (destruct (into_string _ v) eqn:E; simpl; [done|];
         intros [= <-]; by eapply into_string_error).
  unfold into_string_slice. destruct v; simpl; try congruence.
  destruct (into_strings elems) eqn:E; simpl; [done|].
  intros [= <-]. by eapply into_strings_error.
Qed.

Lemma decode_members_error {A} (step : A -> string * json -> res A) ms start e :
  (forall a m e', step a m = Err e' -> e' = UnmarshalError) ->
  (forall e', start = Err e' -> e' = UnmarshalError) ->
  decode_members step ms start = Err e -> e = UnmarshalError.
Proof.
  intros Hstep. revert start. unfold decode_members.
  induction ms as [|m ms IH]; simpl; intros start Hstart; [by apply Hstart|].
  apply IH. destruct start as [a|e0]; simpl; [apply Hstep|apply Hstart].
Qed.

Lemma unmarshal_asset_error v e : unmarshal_asset v = Err e -> e = UnmarshalError.
Proof.
  destruct v as [j|raw]; simpl; [|congruence].
  destruct j; try congruence.
  apply decode_members_error; [apply asset_member_error|done].
Qed.

Lemma ReadAsset_error ctx id w e :
  ReadAsset ctx id w = Err e ->
  e = FailedToReadFromWorldState \/ e = AssetDoesNotExist id \/ e = UnmarshalError.
Proof.
  unfold ReadAsset. destruct (GetState ctx id w) as [[v|]|].
  - intros H%unmarshal_asset_error. by right; right.
  - intros [= <-]. by right; left.
  - intros [= <-]. by left.
Qed.

Lemma invoke_target_spec ctx c w :
  (exists e, invoke ctx c w = (w, Err e) /\ e <> StubError) \/
  exists ev a,
    Timestamp ev = NowRFC3339 ctx /\
    invoke ctx c w = write_event_then_asset ctx ev (target c) a w.
Proof.
  destruct c as [id a b c d|id a b c d|id a b c d e|id b i h|id s r c h]; simpl.
  - pose proof (CreateMaterialCertification_spec ctx id a b c d w) as S.
    destruct (GetMSPID ctx) as [m|]; [|by left; eexists].
    unfold AssetExists in *. destruct (GetState ctx id w) as [o|];
      [|by left; eexists].
    destruct (bool_decide (o <> None)); [by left; eexists|].
    destruct S as (ev & Ht & S). right. by eexists _, _.
  - pose proof (CreateMaterialCertification_Naive_spec ctx id a b c d w) as S.
    destruct (GetMSPID ctx) as [m|]; [|by left; eexists].
    unfold AssetExists in *. destruct (GetState ctx (naiveAssetID id) w) as [o|];
      [|by left; eexists].
    destruct (bool_decide (o <> None)); [by left; eexists|].
    destruct S as (ev & Ht & S). right. by eexists _, _.
  - pose proof (CreatePrintJobStart_spec ctx id a b c d e w) as S.
    destruct (GetMSPID ctx) as [m|]; [|by left; eexists].
    unfold AssetExists in *. destruct (GetState ctx id w) as [o|];
      [|by left; eexists].
    destruct (bool_decide (o <> None)); [by left; eexists|].
    destruct S as (ev & Ht & S). right. by eexists _, _.
  - pose proof (CreatePrintJobCompletion_spec ctx id b i h w) as S.
    destruct (GetMSPID ctx) as [m|]; [|by left; eexists].
    destruct (ReadAsset ctx id w) as [old|e] eqn:Hr.
    + destruct S as (ev & Ht & S). right. by eexists _, _.
    + left. exists e. split; [done|].
      by destruct (ReadAsset_error _ _ _ _ Hr) as [-> | [-> | ->]].
  - pose proof (CreateQACertify_spec ctx id s r c h w) as S.
    destruct (GetMSPID ctx) as [m|]; [|by left; eexists].
    destruct (ReadAsset ctx id w) as [old|e] eqn:Hr.
    + destruct S as (ev & Ht & S). right. by eexists _, _.
    + left. exists e. split; [done|].
      by destruct (ReadAsset_error _ _ _ _ Hr) as [-> | [-> | ->]].
Qed.

End ErrorPaths.

Section Effects.

(** X1.  An invocation that returns an error has written nothing, with one
    exception: when the put of the asset fails (the error is then the
    stub's own), the event written just before stays in the world state. *)
Theorem failed_invocation_writes_at_most_the_event (ctx : Ctx) (c : Call)
    (w w' : World) (e : error) :
  invoke ctx c w = (w', Err e) ->
  (e <> StubError /\ w' = w) \/
  (e = StubError /\ PutFails ctx (target c) = true /\
   exists ev, Timestamp ev = NowRFC3339 ctx /\
     w' = <["EVENT_" +:+ GetTxID ctx := marshal_event ev]> w).
Proof.
  intros H.
  destruct (invoke_target_spec ctx c w) as [(e0 & Hrun & Hne) | (ev & a & Ht & Hrun)];
    rewrite Hrun in H.
  - injection H as <- <-. by left.
  - unfold write_event_then_asset in H.
    destruct (PutFails ctx ("EVENT_" +:+ GetTxID ctx)).
    + injection H as <- <-. by left.
    + destruct (PutFails ctx (target c)) eqn:Hp; [|done].
      injection H as <- <-. right. split; [done|]. split; [done|]. by exists ev.
Qed.

Lemma failed_invocation_writes_at_most_the_event_witness :
  let ctx := mkCtx "tx9" (Ok "Org1MSP") "2024-05-07T10:00:00Z"
                   (fun _ => false) (fun key => String.eqb key "P2") in
  exists w' ev,
    CreatePrintJobStart ctx "P2" "M1" "POWDER-1" "d1" "JOB-2" "h1" ledgerP1
      = (w', Err StubError) /\
    w' = <["EVENT_tx9" := marshal_event ev]> ledgerP1.
Proof.
  intros ctx.
  destruct (failed_invocation_writes_at_most_the_event ctx
              (InvokeCreatePrintJobStart "P2" "M1" "POWDER-1" "d1" "JOB-2" "h1")
              ledgerP1
              (CreatePrintJobStart ctx "P2" "M1" "POWDER-1" "d1" "JOB-2" "h1" ledgerP1).1
              StubError) as [[Hne _] | (_ & _ & ev & _ & Hw)].
  - vm_compute. reflexivity.
  - by destruct Hne.
  - eexists _, ev. split; [|exact Hw]. vm_compute. reflexivity.
Defined.

(** X2.  An invocation touches at most two keys, the event key of its
    transaction and its asset key: every other key keeps its value, whether
    the invocation succeeds or not. *)
Theorem invocation_frame (ctx : Ctx) (c : Call) (w : World) (key : string) :
  key <> "EVENT_" +:+ GetTxID ctx ->
  key <> target c ->
  (invoke ctx c w).1 !! key = w !! key.
Proof.
  intros H1 H2.
  destruct (invoke_target_spec ctx c w) as [(e0 & -> & _) | (ev & a & _ & ->)];
    [done|].
  by apply write_event_then_asset_other.
Qed.

Lemma invocation_frame_witness :
  (CreateQACertify (healthy "tx9" "Org2MSP" "2024-05-07T10:00:00Z")
     "P1" "ASTM-F2924" "FAILED" "CERT-2" "h9" ledgerP1).1 !! "EVENT_tx1"
  = ledgerP1 !! "EVENT_tx1".
Proof.
  apply (invocation_frame (healthy "tx9" "Org2MSP" "2024-05-07T10:00:00Z")
           (InvokeCreateQACertify "P1" "ASTM-F2924" "FAILED" "CERT-2" "h9"));
    discriminate.
Defined.

Lemma invoke_keeps_bound ctx c (w : World) key :
  is_Some (w !! key) -> is_Some ((invoke ctx c w).1 !! key).
Proof.
  intros Hb.
  destruct (invoke_target_spec ctx c w) as [(e0 & -> & _) | (ev & a & _ & ->)];
    [done|].
  unfold write_event_then_asset.
  destruct (PutFails ctx ("EVENT_" +:+ GetTxID ctx)); [done|].
  destruct (PutFails ctx (target c)); simpl; repeat apply bound_insert; done.
Qed.

(** X3.  The chaincode never removes a key: a key bound before a sequence
    of invocations is bound after it, whatever the invocations and their
    outcomes. *)
Theorem invocations_never_unbind (calls : list (Ctx * Call)) (w : World)
    (key : string) :
  is_Some (w !! key) -> is_Some ((invoke_all calls w).1 !! key).
Proof.
  revert w. induction calls as [|[ctx c] rest IH]; intros w Hb; [done|].
  simpl. unfold bind.
  pose proof (invoke_keeps_bound ctx c w key Hb) as H1.
  destruct (invoke ctx c w) as [w1 [[]|e]]; simpl in *; [by apply IH|done].
Qed.

Lemma invocations_never_unbind_witness :
  is_Some ((invoke_all
              [ (healthy "tx8" "Org1MSP" "2024-05-07T09:00:00Z",
                 InvokeCreatePrintJobCompletion "A1" "JOB-3" "PASS" "h8");
                (healthy "tx9" "Org1MSP" "2024-05-07T10:00:00Z",
                 InvokeCreateMaterialCertification "A1" "Ti6Al4V" "B" "S" "h9") ]
              ledgerA1).1 !! "EVENT_tx0").
Proof.
  apply invocations_never_unbind. vm_compute. by eexists.
Defined.

(** X4.  Without a caller identity no writing function does anything: the
    call returns "failed to get client MSPID" and the world state is as it
    was, before the asset key is even read. *)
Theorem no_identity_no_effect (ctx : Ctx) (c : Call) (w : World) :
  is_ok (GetMSPID ctx) = false ->
  invoke ctx c w = (w, Err FailedToGetClientMSPID).
Proof.
  intros Hm. destruct (GetMSPID ctx) eqn:E; [done|].
  destruct c; simpl; run; by rewrite E.
Qed.

Lemma no_identity_no_effect_witness :
  invoke (mkCtx "tx9" (Err StubError) "2024-05-07T10:00:00Z"
                (fun _ => true) (fun _ => true))
         (InvokeCreateQACertify "P1" "ASTM-F2924" "FAILED" "CERT-2" "h9") ledgerP1
  = (ledgerP1, Err FailedToGetClientMSPID).
Proof. apply no_identity_no_effect. reflexivity. Defined.

(** X5.  The two update functions pass on the error of [ReadAsset] and
    write nothing: no event is recorded for an asset that is absent, cannot
    be read or does not decode.  For an absent key the error is "the asset
    ... does not exist". *)
Theorem update_passes_on_read_error (ctx : Ctx) (id : string) (w : World)
    (e : error) :
  is_ok (GetMSPID ctx) = true ->
  ReadAsset ctx id w = Err e ->
  (forall b i h, CreatePrintJobCompletion ctx id b i h w = (w, Err e)) /\
  (forall s r c h, CreateQACertify ctx id s r c h w = (w, Err e)) /\
  (GetFails ctx id = false -> w !! id = None -> e = AssetDoesNotExist id).
Proof.
  intros Hm Hr. split; [|split].
  - intros. pose proof (CreatePrintJobCompletion_spec ctx id b i h w) as S.
    destruct (GetMSPID ctx); [|done]. by rewrite Hr in S.
  - intros. pose proof (CreateQACertify_spec ctx id s r c h w) as S.
    destruct (GetMSPID ctx); [|done]. by rewrite Hr in S.
  - intros Hg Hn. unfold ReadAsset, GetState in Hr. rewrite Hg, Hn in Hr.
    congruence.
Qed.

Lemma update_passes_on_read_error_witness :
  CreatePrintJobCompletion (healthy "tx9" "Org1MSP" "2024-05-07T10:00:00Z")
    "P7" "JOB-7" "PASS" "h9" ledgerP1
  = (ledgerP1, Err (AssetDoesNotExist "P7")).
Proof.
  apply (update_passes_on_read_error
           (healthy "tx9" "Org1MSP" "2024-05-07T10:00:00Z") "P7" ledgerP1);
    reflexivity.
Defined.

End Effects.

Section Creation.

Lemma creation_spec ctx c key w :
  creates c = Some key ->
  match GetMSPID ctx, AssetExists ctx key w with
  | Err _, _ => invoke ctx c w = (w, Err FailedToGetClientMSPID)
  | Ok _, Err e => invoke ctx c w = (w, Err e)
  | Ok _, Ok true => invoke ctx c w = (w, Err (AssetAlreadyExists key))
  | Ok m, Ok false =>
      exists ev, Timestamp ev = NowRFC3339 ctx /\
        invoke ctx c w
        = write_event_then_asset ctx ev key
            (mkAsset key m (initialStage c) [GetTxID ctx]) w
  end.
Proof.
  destruct c as [id a b c d|id a b c d|id a b c d e| |]; simpl; intros [= <-].
  - apply CreateMaterialCertification_spec.
  - apply CreateMaterialCertification_Naive_spec.
  - apply CreatePrintJobStart_spec.
Qed.

Lemma AssetExists_unbound ctx key (w : World) :
  GetFails ctx key = false -> w !! key = None -> AssetExists ctx key w = Ok false.
Proof.
  intros Hg Hn. unfold AssetExists, GetState. rewrite Hg, Hn.
  by rewrite bool_decide_eq_false_2 by (intros H; by apply H).
Qed.

(** X6.  A creation function ([CreateMaterialCertification], its naive
    variant, [CreatePrintJobStart]) goes through exactly when the caller
    identity is available, the key is read and found unbound, and the two
    writes succeed. *)
Theorem creation_accepted_iff (ctx : Ctx) (c : Call) (key : string) (w : World) :
  creates c = Some key ->
  is_ok (invoke ctx c w).2 = creation_accepted ctx key w.
Proof.
  intros Hc. pose proof (creation_spec ctx c key w Hc) as S.
  unfold creation_accepted.
  destruct (GetMSPID ctx); [|by rewrite S].
  destruct (AssetExists ctx key w) as [[]|]; try (by rewrite S).
  destruct S as (ev & _ & ->). by rewrite write_event_then_asset_is_ok.
Qed.

Lemma creation_accepted_iff_witness :
  is_ok (invoke (healthy "tx9" "Org1MSP" "2024-05-07T10:00:00Z")
           (InvokeCreateMaterialCertification_Naive "A" "SS316L" "B" "S" "payload")
           ledgerPrefixed).2
  = creation_accepted (healthy "tx9" "Org1MSP" "2024-05-07T10:00:00Z") "NAIVE_A"
      ledgerPrefixed.
Proof. apply creation_accepted_iff. reflexivity. Defined.

(** X7.  After a successful creation the asset can be read back under the
    key written (the caller's id, or ["NAIVE_"] followed by it for the naive
    function): its id is that key, its owner the caller's MSP id, its stage
    the initial stage of the function, its history the one transaction id;
    and [AssetExists] answers true. *)
Theorem creation_then_read (ctx : Ctx) (c : Call) (key mspID : string)
    (w w' : World) :
  creates c = Some key ->
  GetMSPID ctx = Ok mspID ->
  invoke ctx c w = (w', Ok tt) ->
  forall reader : Ctx,
    GetFails reader key = false ->
    ReadAsset reader key w'
      = Ok (mkAsset key mspID (initialStage c) [GetTxID ctx]) /\
    AssetExists reader key w' = Ok true.
Proof.
  intros Hc Hm Hrun reader Hg.
  pose proof (creation_spec ctx c key w Hc) as S. rewrite Hm in S.
  destruct (AssetExists ctx key w) as [[]|]; try congruence.
  destruct S as (ev & _ & S). rewrite S in Hrun.
  pose proof (asset_at_written _ _ _ _ _ _ Hrun) as Hat.
  split; [by apply asset_at_ReadAsset|].
  unfold asset_at in Hat. destruct (w' !! key) as [v|] eqn:Hv; [|done].
  by eapply AssetExists_bound_ok.
Qed.

Lemma creation_then_read_witness :
  ReadAsset flakyReader "NAIVE_A"
    (invoke (healthy "tx9" "Org1MSP" "2024-05-07T10:00:00Z")
       (InvokeCreateMaterialCertification_Naive "A" "SS316L" "B" "S" "payload")
       ledgerP1).1
  = Ok (mkAsset "NAIVE_A" "Org1MSP" "MATERIAL_CERTIFIED_NAIVE" ["tx9"]).
Proof.
  refine (proj1 (creation_then_read
                   (healthy "tx9" "Org1MSP" "2024-05-07T10:00:00Z")
                   (InvokeCreateMaterialCertification_Naive "A" "SS316L" "B" "S" "payload")
                   "NAIVE_A" "Org1MSP" ledgerP1 _ _ _ _ flakyReader _));
    vm_compute; reflexivity.
Defined.

End Creation.

Section HistoryReads.

(** X8.  For a readable asset, every history entry gives either one event
    or one warning: the events returned and the warnings printed together
    number as many as the entries, so the history returned is never longer
    than the one recorded. *)
Theorem history_read_accounting (ctx : Ctx) (id : string) (w : World) (a : Asset) :
  ReadAsset ctx id w = Ok a ->
  exists history out,
    GetAssetHistory ctx id w = (Ok history, out) /\
    length history + length out = length (HistoryTxIDs a) /\
    length history <= length (HistoryTxIDs a).
Proof.
  intros Hr. rewrite GetAssetHistory_spec, Hr. eexists _, _.
  split; [reflexivity|].
  assert (H : forall l, length (omap (resolve ctx w) l)
                        + length (omap (warned ctx w) l) = length l).
  { induction l as [|tx l IH]; simpl; [done|].
    pose proof (warned_iff ctx w tx) as Hiff.
    destruct (resolve ctx w tx) eqn:E1, (warned ctx w tx) eqn:E2; simpl.
    - destruct Hiff as [Hiff _]. by discriminate Hiff.
    - f_equal. exact IH.
    - rewrite Nat.add_succ_r. f_equal. exact IH.
    - destruct Hiff as [_ Hiff]. by destruct Hiff. }
  specialize (H (HistoryTxIDs a)). lia.
Qed.

Lemma history_read_accounting_witness :
  exists history out,
    GetAssetHistory flakyReader "P1" ledgerP1 = (Ok history, out) /\
    length history + length out = 3 /\ length history <= 3.
Proof.
  apply (history_read_accounting flakyReader "P1" ledgerP1
           (mkAsset "P1" "Org1MSP" "CERTIFIED" ["tx1"; "tx2"; "tx3"])).
  vm_compute. reflexivity.
Defined.

End HistoryReads.

Section Records.

Lemma marshal_asset_inj a b : marshal_asset a = marshal_asset b -> a = b.
Proof.
  intros H. apply (f_equal unmarshal_asset) in H.
  rewrite !unmarshal_marshal_asset in H. congruence.
Qed.

Lemma marshal_event_neq_asset e a : marshal_event e <> marshal_asset a.
Proof. unfold marshal_event, event_members, marshal_asset. simpl. congruence. Qed.

Lemma histories_nonempty_write ctx ev key a w :
  histories_nonempty w -> HistoryTxIDs a <> [] ->
  histories_nonempty (write_event_then_asset ctx ev key a w).1.
Proof.
  intros Hw Ha.
  assert (Hev : histories_nonempty
                  (<["EVENT_" +:+ GetTxID ctx := marshal_event ev]> w)).
  { intros k b. destruct (decide ("EVENT_" +:+ GetTxID ctx = k)) as [->|Hne].
    - rewrite lookup_insert_eq. intros H.
      assert (marshal_event ev = marshal_asset b) as H' by congruence.
      by apply marshal_event_neq_asset in H'.
    - rewrite lookup_insert_ne by done. apply Hw. }
  unfold write_event_then_asset.
  destruct (PutFails ctx ("EVENT_" +:+ GetTxID ctx)); [done|].
  destruct (PutFails ctx key); simpl; [done|].
  intros k b. destruct (decide (key = k)) as [->|Hne].
  - rewrite lookup_insert_eq. intros H.
    assert (marshal_asset a = marshal_asset b) as H' by congruence.
    apply marshal_asset_inj in H'. by subst.
  - rewrite lookup_insert_ne by done. apply Hev.
Qed.

Lemma reachable_histories_nonempty w : reachable w -> histories_nonempty w.
Proof.
  induction 1 as [|w ctx c _ IH].
  - intros k a Hk. by rewrite lookup_empty in Hk.
  - destruct (invoke_shape ctx c w) as [[e ->] | (ev & key & a & _ & -> & Hh)];
      [done|].
    apply histories_nonempty_write; [done|].
    destruct Hh as [-> | (old & _ & ->)]; [done|].
    intros H. by apply app_eq_nil in H as [_ H].
Qed.

(** X10.  In the world states the chaincode produces from the empty ledger
    every stored record decodes, so [ReadAsset] fails only on a failed read
    or an absent key.  What it returns is an asset with at least one history
    entry, or else the zero asset, and then the key holds an event: the
    function does not tell the two kinds of record apart. *)
Theorem reachable_reads (w : World) :
  reachable w ->
  forall (ctx : Ctx) (id : string),
    (forall e, ReadAsset ctx id w = Err e ->
       e = FailedToReadFromWorldState \/ e = AssetDoesNotExist id) /\
    (forall a, ReadAsset ctx id w = Ok a ->
       HistoryTxIDs a <> [] \/
       (a = zeroAsset /\ exists ev, w !! id = Some (marshal_event ev))).
Proof.
  intros Hw ctx id.
  destruct (reachable_invariants w Hw) as [_ Hc].
  pose proof (reachable_histories_nonempty w Hw) as Hn.
  unfold ReadAsset, GetState. destruct (GetFails ctx id).
  { split; [intros e [= <-]; by left|done]. }
  destruct (w !! id) as [v|] eqn:Hv; [|split; [intros e [= <-]; by right|done]].
  destruct (Hc id v Hv) as [[ev ->] | [a0 ->]].
  - rewrite unmarshal_asset_of_event. split; [done|].
    intros a [= <-]. right. split; [done|]. by exists ev.
  - rewrite unmarshal_marshal_asset. split; [done|].
    intros a [= <-]. left. by eapply Hn.
Qed.

Lemma reachable_reads_witness :
  HistoryTxIDs zeroAsset <> [] \/
  (zeroAsset = zeroAsset /\
   exists ev, ledgerP1 !! "EVENT_tx1" = Some (marshal_event ev)).
Proof.
  apply (proj2 (reachable_reads ledgerP1
                  (invoke_all_reachable _ _ reachable_empty)
                  flakyReader "EVENT_tx1")).
  vm_compute. reflexivity.
Defined.

(** X11.  Events are not write-once.  An update called with the key of a
    stored event as its asset id reads the event as the zero asset, is
    accepted, and stores an asset under that key; the history entry that
    pointed to the event then reads back as the zero event. *)
Theorem update_on_event_key_replaces_event (ctx : Ctx) (w : World)
    (txID : string) (recorded : ProvenanceEvent) (b i h : string) :
  w !! ("EVENT_" +:+ txID) = Some (marshal_event recorded) ->
  update_accepted ctx ("EVENT_" +:+ txID) w = true ->
  exists w',
    CreatePrintJobCompletion ctx ("EVENT_" +:+ txID) b i h w = (w', Ok tt) /\
    w' !! ("EVENT_" +:+ txID)
      = Some (marshal_asset (mkAsset "" "" "AWAITING_QA" [GetTxID ctx])) /\
    forall reader, GetFails reader ("EVENT_" +:+ txID) = false ->
      resolve reader w' txID = Some zeroEvent.
Proof.
  intros Hv Hacc. set (key := "EVENT_" +:+ txID) in *.
  unfold update_accepted in Hacc.
  apply andb_prop in Hacc as [Hacc Hp2]. apply andb_prop in Hacc as [Hacc Hp1].
  apply andb_prop in Hacc as [Hm Hr].
  apply negb_true_iff in Hp1, Hp2.
  assert (Hread : ReadAsset ctx key w = Ok zeroAsset).
  { unfold ReadAsset, GetState in *. destruct (GetFails ctx key); [done|].
    by rewrite Hv, unmarshal_asset_of_event. }
  pose proof (CreatePrintJobCompletion_spec ctx key b i h w) as S.
  destruct (GetMSPID ctx); [|done]. rewrite Hread in S.
  destruct S as (ev & _ & S). rewrite write_event_then_asset_run in S by done.
  eexists. split; [exact S|]. split; [by rewrite lookup_insert_eq|].
  intros reader Hg. unfold resolve, GetState. fold key.
  by rewrite Hg, lookup_insert_eq, unmarshal_event_of_asset.
Qed.

Lemma update_on_event_key_replaces_event_witness :
  exists w',
    CreatePrintJobCompletion (healthy "tx6" "Org3MSP" "2024-05-06T10:00:00Z")
      ("EVENT_" +:+ "tx1") "JOB-X" "PASS" "h6" ledgerP1 = (w', Ok tt) /\
    w' !! ("EVENT_" +:+ "tx1")
      = Some (marshal_asset (mkAsset "" "" "AWAITING_QA" ["tx6"])).
Proof.
  destruct (update_on_event_key_replaces_event
              (healthy "tx6" "Org3MSP" "2024-05-06T10:00:00Z") ledgerP1 "tx1"
              (mkEvent "PRINT_JOB_START" "Org1MSP" "2024-05-01T11:00:00Z" "h1" ""
                 "" "" "" "d1" "" "M1" "POWDER-1" "JOB-1" "" "" "" "")
              "JOB-X" "PASS" "h6") as (w' & Hrun & Hw & _).
  - vm_compute. reflexivity.
  - vm_compute. reflexivity.
  - exists w'. split; [exact Hrun|exact Hw].
Defined.

End Records.

Section Composition.

Lemma event_key_inj t1 t2 : "EVENT_" +:+ t1 = "EVENT_" +:+ t2 -> t1 = t2.
Proof. simpl. intros H. by simplify_eq. Qed.

Lemma omap_agree {A B} (f g : A -> option B) (l : list A) :
  (forall x, x ∈ l -> f x = g x) -> omap f l = omap g l.
Proof.
  induction l as [|x l IH]; intros H; simpl; [done|].
  rewrite (H x) by apply list_elem_of_here.
  assert (omap f l = omap g l) as IH'.
  { apply IH. intros y Hy. apply H. by apply list_elem_of_further. }
  destruct (g x); [f_equal|]; exact IH'.
Qed.

(** X12.  Reading the history after a successful update gives what it gave
    before, followed by the event of the update, stamped with the clock
    reading of that invocation.  This needs the keys to stay apart: the
    transaction id is new to the history, and the asset key is not the event
    key of the transaction or of a history entry. *)
Theorem update_extends_history_read (ctx : Ctx) (c : Call) (id : string)
    (w w' : World) (old : Asset) (reader : Ctx) :
  updates id c = true ->
  invoke ctx c w = (w', Ok tt) ->
  asset_at w id = Some old ->
  GetTxID ctx ∉ HistoryTxIDs old ->
  (forall t, t ∈ GetTxID ctx :: HistoryTxIDs old -> id <> "EVENT_" +:+ t) ->
  (forall key, GetFails reader key = false) ->
  exists history event,
    (GetAssetHistory reader id w).1 = Ok history /\
    (GetAssetHistory reader id w').1 = Ok (history ++ [event]) /\
    Timestamp event = NowRFC3339 ctx.
Proof.
  intros Hc Hrun Hold Hfresh Hkeys Hg.
  assert (exists stage ev, Timestamp ev = NowRFC3339 ctx /\
            w' = <[id := marshal_asset (updated stage (GetTxID ctx) old)]>
                   (<["EVENT_" +:+ GetTxID ctx := marshal_event ev]> w))
    as (stage & ev & Ht & ->).
  { destruct c as [| | |id' b i h|id' s r c h]; simpl in Hc; try done;
      apply String.eqb_eq in Hc as ->; simpl in Hrun.
    - pose proof (CreatePrintJobCompletion_spec ctx id b i h w) as S.
      destruct (GetMSPID ctx); [|congruence].
      destruct (ReadAsset ctx id w) as [old'|] eqn:Hr; [|congruence].
      apply ReadAsset_asset_at in Hr. assert (old' = old) as -> by congruence.
      destruct S as (ev & Ht & S). rewrite S in Hrun.
      apply write_event_then_asset_ok in Hrun as (_ & _ & ->). by eexists _, _.
    - pose proof (CreateQACertify_spec ctx id s r c h w) as S.
      destruct (GetMSPID ctx); [|congruence].
      destruct (ReadAsset ctx id w) as [old'|] eqn:Hr; [|congruence].
      apply ReadAsset_asset_at in Hr. assert (old' = old) as -> by congruence.
      destruct S as (ev & Ht & S). rewrite S in Hrun.
      apply write_event_then_asset_ok in Hrun as (_ & _ & ->). by eexists _, _. }
  exists (omap (resolve reader w) (HistoryTxIDs old)), ev.
  rewrite !GetAssetHistory_spec.
  rewrite (asset_at_ReadAsset reader id w old (Hg id) Hold).
  rewrite (asset_at_ReadAsset reader id _ _ (Hg id) (asset_at_insert id _ _)).
  split; [done|]. split; [|done]. simpl. f_equal.
  rewrite omap_app. f_equal.
  - apply omap_agree. intros t Ht'. unfold resolve, GetState. rewrite Hg.
    rewrite lookup_insert_ne.
    2:{ apply Hkeys. by apply list_elem_of_further. }
    rewrite lookup_insert_ne; [done|].
    intros E%event_key_inj. by subst.
  - simpl. unfold resolve, GetState. rewrite Hg.
    rewrite lookup_insert_ne by (apply Hkeys; apply list_elem_of_here).
    by rewrite lookup_insert_eq, unmarshal_marshal_event.
Qed.

Lemma update_extends_history_read_witness :
  exists history event,
    (GetAssetHistory (healthy "q2" "Org1MSP" "2024-05-08T10:00:00Z") "P1"
       ledgerAwaitingQA).1 = Ok history /\
    (GetAssetHistory (healthy "q2" "Org1MSP" "2024-05-08T10:00:00Z") "P1"
       ledgerP1).1 = Ok (history ++ [event]) /\
    Timestamp event = "2024-05-01T13:00:00Z".
Proof.
  apply (update_extends_history_read
           (healthy "tx3" "Org2MSP" "2024-05-01T13:00:00Z")
           (InvokeCreateQACertify "P1" "ASTM-F2924" "CERTIFIED_FIT_FOR_USE"
              "CERT-1" "h3")
           "P1" ledgerAwaitingQA ledgerP1
           (mkAsset "P1" "Org1MSP" "AWAITING_QA" ["tx1"; "tx2"])).
  - reflexivity.
  - vm_compute. reflexivity.
  - vm_compute. reflexivity.
  - simpl. intros H. repeat (apply elem_of_cons in H as [H|H]; [discriminate H|]).
    by apply elem_of_nil in H.
  - intros t H. simpl in H.
    repeat (apply elem_of_cons in H as [->|H]; [discriminate|]).
    by apply elem_of_nil in H.
  - reflexivity.
Defined.

(** X13.  The lightweight certification puts only the hash of the evidence
    on the ledger and the naive one only the payload.  Let the material
    type, batch, supplier and the hash or payload be valid UTF-8 (what
    [json.Marshal] writes unchanged), and, for the lightweight function, let
    the asset id not be the event key of the transaction.  Then, read
    through [GetAssetHistory], the one event of a newly certified batch
    carries the caller's MSP id, the clock reading and the three descriptive
    fields, with the hash and an empty payload in the first case, with the
    payload and an empty hash in the second. *)
Theorem certification_event_content (ctx : Ctx) (id mt mb sup data mspID : string)
    (w : World) (reader : Ctx) :
  GetMSPID ctx = Ok mspID ->
  (forall key, GetFails reader key = false) ->
  valid_utf8 mt = true -> valid_utf8 mb = true ->
  valid_utf8 sup = true -> valid_utf8 data = true ->
  (forall w', id <> "EVENT_" +:+ GetTxID ctx ->
     CreateMaterialCertification ctx id mt mb sup data w = (w', Ok tt) ->
     GetAssetHistory reader id w'
     = (Ok [mkEvent "MATERIAL_CERTIFICATION_LIGHTWEIGHT" mspID (NowRFC3339 ctx)
              data "" mt mb sup "" "" "" "" "" "" "" "" ""], [])) /\
  (forall w',
     CreateMaterialCertification_Naive ctx id mt mb sup data w = (w', Ok tt) ->
     GetAssetHistory reader (naiveAssetID id) w'
     = (Ok [mkEvent "MATERIAL_CERTIFICATION_NAIVE" mspID (NowRFC3339 ctx)
              "" data mt mb sup "" "" "" "" "" "" "" "" ""], [])).
Proof.
  intros Hm Hg _ _ _ _. split.
  - intros w' Hne Hrun. revert Hrun. run. rewrite Hm.
    destruct (AssetExists ctx id w) as [[]|]; try done.
    destruct (PutFails ctx ("EVENT_" +:+ GetTxID ctx)); [done|].
    destruct (PutFails ctx id); [done|]. intros [= <-].
    rewrite GetAssetHistory_spec. unfold ReadAsset, GetState. rewrite Hg.
    rewrite lookup_insert_eq, unmarshal_marshal_asset. simpl.
    unfold resolve, warned, GetState. rewrite Hg.
    rewrite lookup_insert_ne by done.
    by rewrite lookup_insert_eq, unmarshal_marshal_event.
  - intros w' Hrun. revert Hrun. run. rewrite Hm.
    destruct (AssetExists ctx (naiveAssetID id) w) as [[]|]; try done.
    destruct (PutFails ctx ("EVENT_" +:+ GetTxID ctx)); [done|].
    destruct (PutFails ctx (naiveAssetID id)); [done|]. intros [= <-].
    rewrite GetAssetHistory_spec. unfold ReadAsset, GetState. rewrite Hg.
    rewrite lookup_insert_eq, unmarshal_marshal_asset. simpl.
    unfold resolve, warned, GetState. rewrite Hg.
    rewrite lookup_insert_ne by done.
    by rewrite lookup_insert_eq, unmarshal_marshal_event.
Qed.

Lemma certification_event_content_witness :
  GetAssetHistory (healthy "q2" "Org1MSP" "2024-05-08T10:00:00Z") "A1" ledgerA1
  = (Ok [mkEvent "MATERIAL_CERTIFICATION_LIGHTWEIGHT" "Org1MSP"
           "2024-05-01T10:00:00Z" "h1" "" "Ti6Al4V" "POWDER-1" "SupplierCorpMSP"
           "" "" "" "" "" "" "" "" ""], []) /\
  GetAssetHistory (healthy "q2" "Org1MSP" "2024-05-08T10:00:00Z") "NAIVE_A1"
    (CreateMaterialCertification_Naive
       (healthy "tx0" "Org1MSP" "2024-05-01T10:00:00Z")
       "A1" "Ti6Al4V" "POWDER-1" "SupplierCorpMSP" "cGF5bG9hZA==" ∅).1
  = (Ok [mkEvent "MATERIAL_CERTIFICATION_NAIVE" "Org1MSP"
           "2024-05-01T10:00:00Z" "" "cGF5bG9hZA==" "Ti6Al4V" "POWDER-1"
           "SupplierCorpMSP" "" "" "" "" "" "" "" "" ""], []).
Proof.
  split.
  - destruct (certification_event_content
                (healthy "tx0" "Org1MSP" "2024-05-01T10:00:00Z")
                "A1" "Ti6Al4V" "POWDER-1" "SupplierCorpMSP" "h1" "Org1MSP" ∅
                (healthy "q2" "Org1MSP" "2024-05-08T10:00:00Z")) as [H _];
      [reflexivity|reflexivity|reflexivity|reflexivity|reflexivity|reflexivity|].
    apply H; [discriminate|vm_compute; reflexivity].
  - destruct (certification_event_content
                (healthy "tx0" "Org1MSP" "2024-05-01T10:00:00Z")
                "A1" "Ti6Al4V" "POWDER-1" "SupplierCorpMSP" "cGF5bG9hZA=="
                "Org1MSP" ∅
                (healthy "q2" "Org1MSP" "2024-05-08T10:00:00Z")) as [_ H];
      [reflexivity|reflexivity|reflexivity|reflexivity|reflexivity|reflexivity|].
    apply H. vm_compute. reflexivity.
Defined.

End Composition.

Section Shapes.

Lemma invoke_written_asset ctx c w :
  (exists e, invoke ctx c w = (w, Err e)) \/
  exists ev a,
    invoke ctx c w = write_event_then_asset ctx ev (target c) a w /\
    ((exists owner, a = mkAsset (target c) owner (CurrentLifecycleStage a)
                          (HistoryTxIDs a)
                    /\ CurrentLifecycleStage a ∈ stages) \/
     (exists old stage, asset_at w (target c) = Some old /\
        a = updated stage (GetTxID ctx) old /\ stage ∈ stages)).
Proof.
  destruct c as [id a b c d|id a b c d|id a b c d e|id b i h|id s r c h]; simpl.
  - pose proof (CreateMaterialCertification_spec ctx id a b c d w) as S.
    destruct (GetMSPID ctx) as [m|]; [|by left; eexists].
    destruct (AssetExists ctx id w) as [[]|]; try (by left; eexists).
    destruct S as (ev & _ & S). right. eexists _, _. split; [exact S|].
    left. exists m. split; [done|]. simpl. set_solver.
  - pose proof (CreateMaterialCertification_Naive_spec ctx id a b c d w) as S.
    destruct (GetMSPID ctx) as [m|]; [|by left; eexists].
    destruct (AssetExists ctx (naiveAssetID id) w) as [[]|]; try (by left; eexists).
    destruct S as (ev & _ & S). right. eexists _, _. split; [exact S|].
    left. exists m. split; [done|]. simpl. set_solver.
  - pose proof (CreatePrintJobStart_spec ctx id a b c d e w) as S.
    destruct (GetMSPID ctx) as [m|]; [|by left; eexists].
    destruct (AssetExists ctx id w) as [[]|]; try (by left; eexists).
    destruct S as (ev & _ & S). right. eexists _, _. split; [exact S|].
    left. exists m. split; [done|]. simpl. set_solver.
  - pose proof (CreatePrintJobCompletion_spec ctx id b i h w) as S.
    destruct (GetMSPID ctx) as [m|]; [|by left; eexists].
    destruct (ReadAsset ctx id w) as [old|] eqn:Hr; [|by left; eexists].
    destruct S as (ev & _ & S). right. eexists _, _. split; [exact S|].
    right. exists old, "AWAITING_QA".
    split; [by eapply ReadAsset_asset_at|]. split; [done|]. set_solver.
  - pose proof (CreateQACertify_spec ctx id s r c h w) as S.
    destruct (GetMSPID ctx) as [m|]; [|by left; eexists].
    destruct (ReadAsset ctx id w) as [old|] eqn:Hr; [|by left; eexists].
    destruct S as (ev & _ & S). right. eexists _, _. split; [exact S|].
    right. exists old, (qaStage r).
    split; [by eapply ReadAsset_asset_at|]. split; [done|].
    unfold qaStage. destruct (String.eqb r "CERTIFIED_FIT_FOR_USE"); set_solver.
Qed.

Lemma records_well_shaped_step ctx c w :
  chaincode_written w -> records_well_shaped w ->
  records_well_shaped (invoke ctx c w).1.
Proof.
  intros Hc Hw.
  destruct (invoke_written_asset ctx c w) as [[e ->] | (ev & a & -> & Ha)]; [done|].
  assert (Hev : records_well_shaped
                  (<["EVENT_" +:+ GetTxID ctx := marshal_event ev]> w)).
  { intros k b. destruct (decide ("EVENT_" +:+ GetTxID ctx = k)) as [->|Hne].
    - rewrite lookup_insert_eq. intros H.
      assert (marshal_event ev = marshal_asset b) as H' by congruence.
      by apply marshal_event_neq_asset in H'.
    - rewrite lookup_insert_ne by done. apply Hw. }
  unfold write_event_then_asset.
  destruct (PutFails ctx ("EVENT_" +:+ GetTxID ctx)); [done|].
  destruct (PutFails ctx (target c)); simpl; [done|].
  intros k b. destruct (decide (target c = k)) as [<-|Hne];
    [|rewrite lookup_insert_ne by done; apply Hev].
  rewrite lookup_insert_eq. intros H.
  assert (marshal_asset a = marshal_asset b) as H' by congruence.
  apply marshal_asset_inj in H' as <-.
  destruct Ha as [(owner & Ha & Hst) | (old & stage & Hold & -> & Hst)].
  - split; [done|]. left. by rewrite Ha.
  - split; [by destruct old|].
    unfold asset_at in Hold. destruct (w !! target c) as [v|] eqn:Hv; [|done].
    destruct (Hc _ _ Hv) as [[e ->] | [a0 ->]].
    + rewrite unmarshal_asset_of_event in Hold. injection Hold as <-. by right.
    + rewrite unmarshal_marshal_asset in Hold. injection Hold as <-.
      destruct (Hw _ _ Hv) as [_ Hid]. by destruct a0.
Qed.

(** X14.  In the world states the chaincode produces from the empty ledger,
    every stored asset record has one of the six stages the functions write,
    and its [assetID] field is the key it is stored under; the exception is
    a record written by an update that was given an event key, whose
    [assetID] and [owner] are both empty. *)
Theorem reachable_asset_records (w : World) (key : string) (a : Asset) :
  reachable w ->
  w !! key = Some (marshal_asset a) ->
  CurrentLifecycleStage a ∈ stages /\
  (AssetID a = key \/ (AssetID a = "" /\ Owner a = "")).
Proof.
  intros Hw. revert key a.
  change (records_well_shaped w).
  induction Hw as [|w ctx c Hw IH].
  - intros k a Hk. by rewrite lookup_empty in Hk.
  - apply records_well_shaped_step; [|done].
    by destruct (reachable_invariants w Hw).
Qed.

Lemma reachable_asset_records_witness :
  CurrentLifecycleStage (mkAsset "P1" "Org1MSP" "CERTIFIED" ["tx1"; "tx2"; "tx3"])
    ∈ stages /\
  (AssetID (mkAsset "P1" "Org1MSP" "CERTIFIED" ["tx1"; "tx2"; "tx3"]) = "P1" \/
   (AssetID (mkAsset "P1" "Org1MSP" "CERTIFIED" ["tx1"; "tx2"; "tx3"]) = "" /\
    Owner (mkAsset "P1" "Org1MSP" "CERTIFIED" ["tx1"; "tx2"; "tx3"]) = "")).
Proof.
  apply (reachable_asset_records ledgerP1 "P1").
  - apply invoke_all_reachable, reachable_empty.
  - vm_compute. reflexivity.
Defined.

(** X15.  [AssetExists] looks at nothing but whether the key is bound: it
    answers true for every bound key, a record that [ReadAsset] cannot
    decode included, and [ReadAsset] reports "does not exist" exactly when
    [AssetExists] answers false.  Both fail, with the same error, exactly
    when the read of the key fails. *)
Theorem AssetExists_and_ReadAsset (ctx : Ctx) (id : string) (w : World) :
  (AssetExists ctx id w = Ok true <-> GetFails ctx id = false /\ is_Some (w !! id)) /\
  (AssetExists ctx id w = Ok false <-> ReadAsset ctx id w = Err (AssetDoesNotExist id)) /\
  (AssetExists ctx id w = Err FailedToReadFromWorldState
     <-> ReadAsset ctx id w = Err FailedToReadFromWorldState) /\
  (forall raw, GetFails ctx id = false -> w !! id = Some (Garbled raw) ->
     AssetExists ctx id w = Ok true /\ ReadAsset ctx id w = Err UnmarshalError).
Proof.
  assert (Hbd : forall o : option bytes,
            bool_decide (o <> None) = match o with Some _ => true | None => false end).
  { intros [v|]; [by rewrite bool_decide_eq_true_2|].
    rewrite bool_decide_eq_false_2; [done|]. intros H. by apply H. }
  unfold AssetExists, ReadAsset, GetState.
  destruct (GetFails ctx id).
  { split; [split; [done|by intros [? _]]|].
    split; [by split|]. split; [by split|]. by intros raw. }
  rewrite Hbd. destruct (w !! id) as [v|] eqn:Hv.
  - split; [split; [intros _; split; [done|by eexists]|done]|].
    split; [split; [done|by intros H%unmarshal_asset_error]|].
    split; [split; [done|by intros H%unmarshal_asset_error]|].
    intros raw _ [= ->]. done.
  - split; [split; [done|by intros [_ [? ?]]]|].
    split; [by split|]. split; [by split|]. by intros raw.
Qed.

Lemma AssetExists_and_ReadAsset_witness :
  AssetExists flakyReader "P1" ledgerCorrupt = Ok true /\
  ReadAsset flakyReader "P1" ledgerCorrupt = Err UnmarshalError.
Proof.
  destruct (AssetExists_and_ReadAsset flakyReader "P1" ledgerCorrupt)
    as (_ & _ & _ & H).
  apply (H "###"); vm_compute; reflexivity.
Defined.

End Shapes.

(** * Further properties of the drivers *)

Module DriverFacts.
Import Harness HarnessFacts StressPlan.

Section Issued.

Lemma submitBatches_inv env fuel txs c i sent r sent' :
  sent = take i txs ->
  submitBatches env fuel txs c i sent = Some (r, sent') ->
  exists k, sent' = take k txs /\
    (r = Completed ->
     sent' = txs /\ forall j, i <= j < length txs -> submitOk env j = true).
Proof.
  revert i sent. induction fuel as [|fuel IH]; intros i sent Hsent; [done|].
  simpl. destruct (Nat.ltb_spec i (length txs)) as [Hi|Hi].
  - assert (Hnext : sent ++ take c (drop i txs) = take (i + c) txs)
      by (by rewrite Hsent, take_take_drop).
    destruct (forallb (submitOk env) (seq i (length (take c (drop i txs)))))
      eqn:Hall.
    + intros Hrun. destruct (IH _ _ Hnext Hrun) as (k & Hk & Hdone).
      exists k. split; [done|]. intros Hr.
      destruct (Hdone Hr) as [Hall' Hok]. split; [done|].
      intros j Hj. destruct (le_lt_dec (i + c) j); [apply Hok; lia|].
      rewrite forallb_forall in Hall. apply Hall, in_seq.
      rewrite length_take, length_drop. lia.
    + intros [= <- <-]. exists (i + c). by split.
  - intros [= <- <-]. exists i. split; [done|]. intros _.
    split; [subst; by rewrite take_ge|]. lia.
Qed.

(** X16.  Whatever the batch width and the outcomes of the calls, the calls
    [testThroughput] issues are an initial part of the array it built, in
    array order; and a result other than 0 is returned only when every call
    was issued and every call resolved. *)
Theorem issued_calls_form_a_prefix (env : Env) (fuel : nat) (payloadSize : N)
    (txCount concurrency : nat) (tps : number) (sent : list Transaction) :
  testThroughput env fuel payloadSize txCount concurrency = Some (tps, sent) ->
  (exists k, sent = take k (buildTransactions env payloadSize txCount 0 [])) /\
  (tps <> Number 0 ->
   sent = buildTransactions env payloadSize txCount 0 [] /\
   forall j, j < txCount -> submitOk env j = true).
Proof.
  unfold testThroughput.
  pose proof (buildTransactions_length env payloadSize txCount) as Hlen.
  set (txs := buildTransactions env payloadSize txCount 0 []) in *.
  destruct (submitBatches env fuel txs concurrency 0 []) as [[r sent']|] eqn:Hrun;
    [|done].
  destruct (submitBatches_inv env fuel txs concurrency 0 [] r sent' eq_refl Hrun)
    as (k & Hk & Hdone).
  destruct r; intros [= <- <-].
  - split; [by exists k|]. intros _. destruct (Hdone eq_refl) as [H1 H2].
    split; [done|]. intros j Hj. apply H2. lia.
  - split; [by exists k|]. done.
Qed.

Lemma issued_calls_form_a_prefix_witness :
  exists k,
    [ transaction failingRun 0 0; transaction failingRun 0 1;
      transaction failingRun 0 2; transaction failingRun 0 3 ]
    = take k (buildTransactions failingRun 0 5 0 []).
Proof.
  refine (proj1 (issued_calls_form_a_prefix failingRun 10 0 5 2 (Number 0) _ _)).
  vm_compute. reflexivity.
Defined.

(** X17.  With no call to make, [testThroughput] issues nothing and returns
    without running a batch, for every batch width, 0 included; the number
    returned is 0 divided by the elapsed seconds, which is NaN when less
    than a millisecond has elapsed. *)
Theorem empty_run (env : Env) (fuel : nat) (payloadSize : N) (concurrency : nat) :
  0 < fuel ->
  testThroughput env fuel payloadSize 0 concurrency
  = Some (div (Number 0)
              (div (Number (Z.quot (endTime env - startTime env) 1000000))
                   (Number 1000)), []) /\
  (Z.quot (endTime env - startTime env) 1000000 = 0%Z ->
   testThroughput env fuel payloadSize 0 concurrency = Some (S754_nan, [])).
Proof.
  intros Hf. destruct fuel as [|fuel]; [lia|].
  split; [reflexivity|]. intros Hz. unfold testThroughput. simpl. by rewrite Hz.
Qed.

Lemma empty_run_witness :
  testThroughput (mkEnv (fun _ => 0%N) (fun s => s) (fun _ => "") (fun _ => true)
                        1000 999999)
                 1 0 0 0
  = Some (S754_nan, []).
Proof.
  refine (proj2 (empty_run _ 1 0 0 _) _); [lia|reflexivity].
Defined.

End Issued.

Section Built.

Lemma built_lookup env payloadSize n i :
  i < n ->
  buildTransactions env payloadSize n 0 [] !! i = Some (transaction env payloadSize i).
Proof.
  intros Hi. rewrite buildTransactions_spec. simpl.
  rewrite list_lookup_fmap, lookup_seq_lt by done. done.
Qed.

Lemma built_elem env payloadSize n t :
  t ∈ buildTransactions env payloadSize n 0 [] ->
  exists i, i < n /\ t = transaction env payloadSize i.
Proof.
  rewrite buildTransactions_spec. simpl.
  intros (i & -> & Hi)%list_elem_of_fmap.
  apply elem_of_seq in Hi. exists i. split; [lia|done].
Qed.

(** X18.  The array [testThroughput] builds has [txCount] elements; every
    one of them names [CreateMaterialCertification] when the payload size
    is 0 and [CreateMaterialCertification_Naive] otherwise, with the five
    arguments these functions take. *)
Theorem built_transactions (env : Env) (payloadSize : N) (txCount : nat) :
  length (buildTransactions env payloadSize txCount 0 []) = txCount /\
  forall t, t ∈ buildTransactions env payloadSize txCount 0 [] ->
    func t = (if N.eqb payloadSize 0 then "CreateMaterialCertification"
              else "CreateMaterialCertification_Naive") /\
    length (args t) = 5.
Proof.
  split; [apply buildTransactions_length|].
  intros t (i & _ & ->)%built_elem. unfold transaction.
  by destruct (N.eqb payloadSize 0).
Qed.

Lemma built_transactions_witness :
  length (buildTransactions cleanRun 0 5 0 []) = 5.
Proof. exact (proj1 (built_transactions cleanRun 0 5)). Defined.

(** X19.  No entry of the stress plan has payload size 0, the one marked
    "Lightweight" included (its size is 1): every transaction of every
    throughput run of that plan calls [CreateMaterialCertification_Naive]. *)
Theorem stress_plan_calls_naive_only (env : Env) (test : Config) (t : Transaction) :
  test ∈ throughputPayloads ->
  t ∈ buildTransactions env (size test) (count test) 0 [] ->
  func t = "CreateMaterialCertification_Naive".
Proof.
  intros Htest (i & _ & ->)%built_elem. unfold transaction.
  unfold throughputPayloads in Htest.
  repeat (apply elem_of_cons in Htest as [-> | Htest]; [reflexivity|]).
  by apply elem_of_nil in Htest.
Qed.

Lemma stress_plan_calls_naive_only_witness :
  func (transaction cleanRun 1 0) = "CreateMaterialCertification_Naive".
Proof.
  apply (stress_plan_calls_naive_only cleanRun
           (mkConfig "Lightweight" 1 1000 100) (transaction cleanRun 1 0)).
  - apply list_elem_of_here.
  - apply list_elem_of_lookup. exists 0. by apply built_lookup; simpl; lia.
Defined.

End Built.

Section AssetIds.

Lemma digits_no_underscore d : occurs "_" (NilEmpty.string_of_uint d) = false.
Proof. induction d; simpl; done. Qed.

Lemma decimal_nilempty n : decimal n = NilEmpty.string_of_uint (N.to_uint n).
Proof.
  unfold decimal, NilZero.string_of_uint.
  destruct (N.to_uint n) eqn:E; try done.
  destruct n; [done|]. simpl in E. by apply DecimalPos.Unsigned.to_uint_nonnil in E.
Qed.

Lemma decimal_no_underscore n : occurs "_" (decimal n) = false.
Proof. rewrite decimal_nilempty. apply digits_no_underscore. Qed.

Lemma decimal_inj n m : decimal n = decimal m -> n = m.
Proof.
  rewrite !decimal_nilempty. intros H.
  apply (f_equal NilEmpty.uint_of_string) in H. rewrite !NilEmpty.usu in H.
  apply DecimalN.Unsigned.to_uint_inj. congruence.
Qed.

Lemma append_cancel s a b : s +:+ a = s +:+ b -> a = b.
Proof. induction s as [|c s IH]; simpl; [done|]. intros [= H]. by apply IH. Qed.

Lemma split_at_underscore a b x y :
  occurs "_" a = false -> occurs "_" b = false ->
  a +:+ String "_" x = b +:+ String "_" y -> a = b /\ x = y.
Proof.
  revert b. induction a as [|c a IH]; intros [|d b]; simpl.
  - intros _ _ [= ->]. done.
  - intros _ Hb [= <- _]. done.
  - intros Ha _ [= -> _]. done.
  - intros Ha Hb [= <- H].
    apply orb_false_elim in Ha as [_ Ha]. apply orb_false_elim in Hb as [_ Hb].
    destruct (IH b Ha Hb H) as [-> ->]. done.
Qed.

(** X20.  The asset ids of one throughput run are pairwise different,
    whatever the clock shows while they are built: two different positions
    of the array never carry the same asset id, so no call of a run can be
    refused because another call of the run took its id. *)
Theorem asset_ids_distinct (env : Env) (payloadSize : N) (txCount i j : nat)
    (ti tj : Transaction) :
  buildTransactions env payloadSize txCount 0 [] !! i = Some ti ->
  buildTransactions env payloadSize txCount 0 [] !! j = Some tj ->
  i <> j ->
  assetIdOf ti <> assetIdOf tj.
Proof.
  intros Hi Hj Hne.
  assert (Hli := lookup_lt_Some _ _ _ Hi). assert (Hlj := lookup_lt_Some _ _ _ Hj).
  rewrite buildTransactions_length in Hli, Hlj.
  rewrite built_lookup in Hi, Hj by done.
  injection Hi as <-. injection Hj as <-.
  assert (Hid : forall k, assetIdOf (transaction env payloadSize k)
                = "TPS_" +:+ (decimal payloadSize +:+ String "_"
                    (decimal (dateNow env k) +:+ String "_" (decimal (N.of_nat k))))).
  { intros k. unfold transaction, assetIdOf.
    by destruct (N.eqb payloadSize 0). }
  rewrite !Hid. intros H%append_cancel%append_cancel. injection H as H.
  apply split_at_underscore in H as [_ H]; try apply decimal_no_underscore.
  apply decimal_inj in H. lia.
Qed.

Lemma asset_ids_distinct_witness :
  assetIdOf (transaction cleanRun 0 0) <> assetIdOf (transaction cleanRun 0 1).
Proof.
  apply (asset_ids_distinct cleanRun 0 5 0 1); [reflexivity|reflexivity|lia].
Defined.

End AssetIds.

End DriverFacts.

Module ReadTestFacts.
Import Harness ReadTest.

Section LongHistory.

Variable env : Env.
Variable assetId : string.

Lemma submitTransaction_true ctx c w w' :
  submitTransaction ctx c w = (w', true) -> invoke ctx c w = (w', Ok tt).
Proof.
  unfold submitTransaction. destruct (invoke ctx c w) as [w1 [[]|e]]; [|done].
  by intros [= <-].
Qed.

Lemma submitTransaction_false ctx c w w' :
  submitTransaction ctx c w = (w', false) -> w' = w.
Proof.
  unfold submitTransaction. destruct (invoke ctx c w) as [w1 [[]|e]]; [done|].
  by intros [= <-].
Qed.

Lemma submitTransaction_reachable ctx c w :
  reachable w -> reachable (submitTransaction ctx c w).1.
Proof.
  intros Hw. unfold submitTransaction.
  pose proof (reachable_invoke w ctx c Hw) as H.
  by destruct (invoke ctx c w) as [w1 [[]|e]].
Qed.

Lemma addHistory_reachable remaining i w :
  reachable w -> reachable (addHistory env assetId remaining i w).1.
Proof.
  revert i w. induction remaining as [|r IH]; intros i w Hw; [done|].
  simpl.
  match goal with
  | |- context [submitTransaction ?c ?k w] =>
      pose proof (submitTransaction_reachable c k w Hw) as H;
      destruct (submitTransaction c k w) as [w1 []]
  end; simpl in *; [by apply IH|done].
Qed.

(** The ids of the transactions [from], ..., [from + n - 1]. *)
Lemma addHistory_spec remaining i w w' ok a :
  asset_at w assetId = Some a ->
  addHistory env assetId remaining i w = (w', ok) ->
  exists k,
    k <= remaining /\ (if ok then k = remaining else k < remaining) /\
    asset_at w' assetId
    = Some (mkAsset (AssetID a) (Owner a)
              (if k is 0 then CurrentLifecycleStage a else "AWAITING_QA")
              (HistoryTxIDs a
               ++ map (fun n => GetTxID (txContext env (S n))) (seq i k))).
Proof.
  revert i w a. induction remaining as [|r IH]; intros i w a Ha; simpl.
  - intros [= <- <-]. exists 0. split; [lia|]. split; [done|].
    simpl. rewrite app_nil_r. by destruct a.
  - match goal with
    | |- context [submitTransaction ?c ?k w] =>
        destruct (submitTransaction c k w) as [w1 []] eqn:Hs
    end.
    + apply submitTransaction_true in Hs. simpl in Hs.
      apply CreatePrintJobCompletion_ok in Hs as (old & Hr & Hat).
      apply ReadAsset_asset_at in Hr. assert (old = a) as -> by congruence.
      intros Hrun. destruct (IH _ _ _ Hat Hrun) as (k & Hk & Hok & Hfin).
      exists (S k). split; [lia|]. split; [destruct ok; lia|].
      rewrite Hfin. f_equal. destruct a; simpl.
      rewrite <- app_assoc. by destruct k.
    + apply submitTransaction_false in Hs as ->. intros [= <- <-].
      exists 0. split; [lia|]. split; [lia|].
      simpl. rewrite app_nil_r. by destruct a.
Qed.

End LongHistory.

Lemma started_asset (env : Env) (assetId mspID : string) (w w1 : World) :
  GetMSPID (txContext env 0) = Ok mspID ->
  submitTransaction (txContext env 0)
    (InvokeCreatePrintJobStart assetId "READ_TEST_MACHINE" "READ_TEST_MATERIAL"
       "READ_TEST_DESIGN_HASH" "BUILD_FOR_READ_TEST" "dummy_hash_start") w
  = (w1, true) ->
  asset_at w1 assetId
  = Some (mkAsset assetId mspID "IN_PRODUCTION" [GetTxID (txContext env 0)]).
Proof.
  intros Hm Hs. apply submitTransaction_true in Hs. simpl in Hs.
  pose proof (CreatePrintJobStart_spec (txContext env 0) assetId "READ_TEST_MACHINE"
                "READ_TEST_MATERIAL" "READ_TEST_DESIGN_HASH" "BUILD_FOR_READ_TEST"
                "dummy_hash_start" w) as S.
  rewrite Hm in S. destruct (AssetExists (txContext env 0) assetId w) as [[]|];
    try congruence.
  destruct S as (ev & _ & S). rewrite S in Hs. by apply asset_at_written in Hs.
Qed.

(** X21.  When [createLongHistoryAsset] returns true, the asset is on the
    ledger with the submitter as owner and one history entry for the start
    followed by one per completion, in submission order: [numHistoryEvents]
    + 1 entries.  Its stage is [AWAITING_QA], or [IN_PRODUCTION] when no
    completion was asked for. *)
Theorem long_history_created (env : Env) (assetId mspID : string)
    (numHistoryEvents : nat) (w w' : World) :
  GetMSPID (txContext env 0) = Ok mspID ->
  createLongHistoryAsset env assetId numHistoryEvents w = (w', true) ->
  asset_at w' assetId
  = Some (mkAsset assetId mspID
            (if numHistoryEvents is 0 then "IN_PRODUCTION" else "AWAITING_QA")
            (map (fun n => GetTxID (txContext env n)) (seq 0 (S numHistoryEvents)))).
Proof.
  intros Hm. unfold createLongHistoryAsset.
  match goal with
  | |- context [submitTransaction ?c ?k w] =>
      destruct (submitTransaction c k w) as [w1 []] eqn:Hs; [|done]
  end.
  apply (started_asset env assetId mspID w w1 Hm) in Hs.
  intros Hrun.
  destruct (addHistory_spec env assetId _ _ _ _ _ _ Hs Hrun) as (k & _ & -> & Hfin).
  rewrite Hfin. simpl. do 3 f_equal. by rewrite <- seq_shift, map_map.
Qed.

Lemma long_history_created_witness :
  asset_at (createLongHistoryAsset quietNetwork "READ_TEST_ASSET_1" 3 ∅).1
    "READ_TEST_ASSET_1"
  = Some (mkAsset "READ_TEST_ASSET_1" "Org1MSP" "AWAITING_QA"
            ["tx0"; "tx1"; "tx2"; "tx3"]).
Proof.
  apply (long_history_created quietNetwork "READ_TEST_ASSET_1" "Org1MSP" 3 ∅).
  - reflexivity.
  - vm_compute. reflexivity.
Defined.

(** X22.  When [createLongHistoryAsset] returns false nothing is rolled
    back: either the start was refused and the ledger is as it was, or the
    asset is there with the start and the completions committed before the
    one that failed, fewer than were asked for. *)
Theorem long_history_partial (env : Env) (assetId : string)
    (numHistoryEvents : nat) (w w' : World) :
  createLongHistoryAsset env assetId numHistoryEvents w = (w', false) ->
  w' = w \/
  exists owner k,
    k < numHistoryEvents /\
    asset_at w' assetId
    = Some (mkAsset assetId owner
              (if k is 0 then "IN_PRODUCTION" else "AWAITING_QA")
              (map (fun n => GetTxID (txContext env n)) (seq 0 (S k)))).
Proof.
  unfold createLongHistoryAsset.
  match goal with
  | |- context [submitTransaction ?c ?k w] =>
      destruct (submitTransaction c k w) as [w1 []] eqn:Hs
  end.
  - apply submitTransaction_true in Hs. simpl in Hs.
    pose proof (CreatePrintJobStart_spec (txContext env 0) assetId "READ_TEST_MACHINE"
                  "READ_TEST_MATERIAL" "READ_TEST_DESIGN_HASH" "BUILD_FOR_READ_TEST"
                  "dummy_hash_start" w) as S.
    destruct (GetMSPID (txContext env 0)) as [m|]; [|congruence].
    destruct (AssetExists (txContext env 0) assetId w) as [[]|]; try congruence.
    destruct S as (ev & _ & S). rewrite S in Hs. apply asset_at_written in Hs.
    intros Hrun.
    destruct (addHistory_spec env assetId _ _ _ _ _ _ Hs Hrun) as (k & _ & Hk & Hfin).
    right. exists m, k. split; [done|].
    rewrite Hfin. simpl. do 3 f_equal. by rewrite <- seq_shift, map_map.
  - apply submitTransaction_false in Hs as ->. intros [= <-]. by left.
Qed.

Lemma long_history_partial_witness :
  let w' := (createLongHistoryAsset brokenNetwork "R1" 3 ∅).1 in
  w' = ∅ \/
  exists owner k,
    k < 3 /\
    asset_at w' "R1"
    = Some (mkAsset "R1" owner
              (if k is 0 then "IN_PRODUCTION" else "AWAITING_QA")
              (map (fun n => GetTxID (txContext brokenNetwork n)) (seq 0 (S k)))).
Proof.
  intros w'.
  apply (long_history_partial brokenNetwork "R1" 3 ∅ w').
  vm_compute. reflexivity.
Defined.

Lemma full_history_read w reader id a :
  reachable w ->
  (forall key, GetFails reader key = false) ->
  asset_at w id = Some a ->
  exists history,
    GetAssetHistory reader id w = (Ok history, []) /\
    length history = length (HistoryTxIDs a).
Proof.
  intros Hw Hg Hat.
  destruct (reachable_invariants w Hw) as [Hb Hc].
  rewrite GetAssetHistory_spec, (asset_at_ReadAsset reader id w a (Hg id) Hat).
  assert (Hall : Forall (fun tx => is_Some (resolve reader w tx)) (HistoryTxIDs a)).
  { apply Forall_forall. intros tx Hin.
    destruct (Hb id a tx Hat Hin) as [stored Hs].
    destruct (chaincode_written_decodes w _ stored Hc Hs) as [event He].
    unfold resolve, GetState. rewrite Hg, Hs, He. by eexists. }
  eexists. split.
  - f_equal. apply omap_all_none. eapply Forall_impl; [exact Hall|].
    intros tx Hs. simpl in Hs.
    pose proof (warned_iff reader w tx) as Hiff.
    destruct (warned reader w tx); [|done].
    destruct Hiff as [Hiff _]. rewrite Hiff in Hs by (by eexists). by destruct Hs.
  - apply omap_all_some in Hall. by apply Forall2_length in Hall.
Qed.

(** X23.  The two phases of the read test fit together: on a ledger the
    chaincode produced, after [createLongHistoryAsset] has returned true, a
    history read whose point reads all succeed returns
    [numHistoryEvents] + 1 events and prints no warning. *)
Theorem long_history_read_back (env : Env) (assetId : string)
    (numHistoryEvents : nat) (w w' : World) (reader : Ctx) :
  reachable w ->
  is_ok (GetMSPID (txContext env 0)) = true ->
  createLongHistoryAsset env assetId numHistoryEvents w = (w', true) ->
  (forall key, GetFails reader key = false) ->
  exists history,
    GetAssetHistory reader assetId w' = (Ok history, []) /\
    length history = S numHistoryEvents.
Proof.
  intros Hw Hm Hrun Hg.
  destruct (GetMSPID (txContext env 0)) as [m|] eqn:Em; [|done].
  assert (exists a, asset_at w' assetId = Some a /\
                    length (HistoryTxIDs a) = S numHistoryEvents) as (a & Hat & Hlen).
  { revert Hrun. unfold createLongHistoryAsset.
    match goal with
    | |- context [submitTransaction ?c ?k w] =>
        destruct (submitTransaction c k w) as [w1 []] eqn:Hs; [|done]
    end.
    apply (started_asset env assetId m w w1 Em) in Hs. intros Hrun.
    destruct (addHistory_spec env assetId _ _ _ _ _ _ Hs Hrun)
      as (k & _ & -> & Hfin).
    eexists. split; [exact Hfin|]. simpl. by rewrite length_map, length_seq. }
  assert (Hw' : reachable w').
  { replace w' with (createLongHistoryAsset env assetId numHistoryEvents w).1
      by (by rewrite Hrun).
    unfold createLongHistoryAsset.
    match goal with
    | |- context [submitTransaction ?c ?k w] =>
        pose proof (submitTransaction_reachable c k w Hw) as H;
        destruct (submitTransaction c k w) as [w1 []]
    end; simpl in *; [by apply addHistory_reachable|done]. }
  destruct (full_history_read w' reader assetId _ Hw' Hg Hat) as (history & Hh & Hl).
  exists history. split; [done|]. by rewrite Hl.
Qed.

Lemma long_history_read_back_witness :
  exists history,
    GetAssetHistory (healthy "q3" "Org1MSP" "2024-05-09T12:00:00Z")
      "READ_TEST_ASSET_1"
      (createLongHistoryAsset quietNetwork "READ_TEST_ASSET_1" historyLength ∅).1
    = (Ok history, []) /\
    length history = S historyLength.
Proof.
  apply (long_history_read_back quietNetwork "READ_TEST_ASSET_1" historyLength ∅).
  - apply reachable_empty.
  - reflexivity.
  - vm_compute. reflexivity.
  - reflexivity.
Defined.

End ReadTestFacts.

(** * Event records behind the history entries *)

Section EventRecords.

Example valid_utf8_examples :
  valid_utf8 "Ti6Al4V" = true /\
  valid_utf8 (String (ascii_of_N 206) (String (ascii_of_N 188) "m")) = true /\
  valid_utf8 (String (ascii_of_N 255) "") = false /\
  valid_utf8 (String (ascii_of_N 237) (String (ascii_of_N 160) (String (ascii_of_N 128) "")))
    = false /\
  valid_utf8 (String (ascii_of_N 192) (String (ascii_of_N 128) "")) = false.
Proof. repeat split. Qed.

Lemma event_key_prefix txID : String.prefix "EVENT_" ("EVENT_" +:+ txID) = true.
Proof. simpl. by destruct txID. Qed.

Lemma reachable_apart_reachable w : reachable_apart w -> reachable w.
Proof. induction 1; [constructor|by constructor]. Qed.

Lemma records_by_key_step ctx c w :
  String.prefix "EVENT_" (target c) = false ->
  records_by_key w -> records_by_key (invoke ctx c w).1.
Proof.
  intros Hc Hw.
  destruct (invoke_target_spec ctx c w) as [(e0 & -> & _) | (ev & a & _ & ->)];
    [done|].
  assert (Hev : records_by_key
                  (<["EVENT_" +:+ GetTxID ctx := marshal_event ev]> w)).
  { intros k v. destruct (decide ("EVENT_" +:+ GetTxID ctx = k)) as [<-|Hne].
    - rewrite lookup_insert_eq, event_key_prefix. intros [= <-]. by exists ev.
    - rewrite lookup_insert_ne by done. apply Hw. }
  unfold write_event_then_asset.
  destruct (PutFails ctx ("EVENT_" +:+ GetTxID ctx)); [done|].
  destruct (PutFails ctx (target c)); simpl; [done|].
  intros k v. destruct (decide (target c = k)) as [<-|Hne].
  - rewrite lookup_insert_eq, Hc. intros [= <-]. by exists a.
  - rewrite lookup_insert_ne by done. apply Hev.
Qed.

Lemma reachable_apart_records w : reachable_apart w -> records_by_key w.
Proof.
  induction 1 as [|w ctx c _ IH Hc].
  - intros k v Hk. by rewrite lookup_empty in Hk.
  - by apply records_by_key_step.
Qed.

Lemma invoke_all_reachable_apart calls w :
  Forall (fun p => String.prefix "EVENT_" (target p.2) = false) calls ->
  reachable_apart w -> reachable_apart (invoke_all calls w).1.
Proof.
  revert w. induction calls as [|[ctx c] rest IH]; intros w Hall Hw; [done|].
  apply Forall_cons in Hall as [Hc Hrest]. simpl in Hc.
  simpl. unfold bind.
  pose proof (apart_invoke w ctx c Hw Hc) as H1.
  destruct (invoke ctx c w) as [w1 [[]|e]]; simpl in *; [by apply IH|done].
Qed.

(** C5, the claim as written fails.  [ledgerOverwritten] is produced by the
    chaincode from the empty ledger; the history of [P1] in it lists [tx1],
    and the key ["EVENT_tx1"] holds no event: it holds the asset record that
    an update called with that key as its asset id has put there. *)
Lemma history_entry_points_at_asset_record :
  reachable ledgerOverwritten /\
  asset_at ledgerOverwritten "P1"
    = Some (mkAsset "P1" "Org1MSP" "CERTIFIED" ["tx1"; "tx2"; "tx3"]) /\
  ledgerOverwritten !! ("EVENT_" +:+ "tx1")
    = Some (marshal_asset (mkAsset "" "" "AWAITING_QA" ["tx6"])) /\
  forall event, ledgerOverwritten !! ("EVENT_" +:+ "tx1") <> Some (marshal_event event).
Proof.
  assert (Hv : ledgerOverwritten !! ("EVENT_" +:+ "tx1")
               = Some (marshal_asset (mkAsset "" "" "AWAITING_QA" ["tx6"])))
    by (vm_compute; reflexivity).
  split; [|split; [|split]].
  - apply reachable_invoke, invoke_all_reachable, reachable_empty.
  - vm_compute. reflexivity.
  - exact Hv.
  - intros event H. rewrite Hv in H.
    assert (marshal_event event = marshal_asset (mkAsset "" "" "AWAITING_QA" ["tx6"]))
      as H' by congruence.
    by apply marshal_event_neq_asset in H'.
Qed.

(** C5, amended.  In every world state produced from the empty ledger by
    invocations whose asset key does not begin with ["EVENT_"], each
    transaction id in the history of each stored asset has an event record,
    one written by [recordEvent], bound under ["EVENT_" + txID].  The
    functions put the event before the asset: when the event write fails,
    the invocation returns an error and the world state is as it was.
    Without the proviso on the asset keys the entry still has a record bound
    under its event key, and one that decodes without error, but it can be an
    asset record. *)
Theorem history_entries_resolve_to_events :
  (forall w, reachable_apart w ->
     forall id a txID,
       asset_at w id = Some a -> txID ∈ HistoryTxIDs a ->
       exists event, w !! ("EVENT_" +:+ txID) = Some (marshal_event event)) /\
  (forall ctx c w,
     PutFails ctx ("EVENT_" +:+ GetTxID ctx) = true -> refused w (invoke ctx c w)) /\
  (forall w, reachable w ->
     forall id a txID,
       asset_at w id = Some a -> txID ∈ HistoryTxIDs a ->
       exists stored,
         w !! ("EVENT_" +:+ txID) = Some stored /\ is_ok (unmarshal_event stored) = true).
Proof.
  split; [|split].
  - intros w Hw id a tx Hat Hin.
    destruct (reachable_invariants w (reachable_apart_reachable w Hw)) as [Hb _].
    destruct (Hb id a tx Hat Hin) as [stored Hs].
    pose proof (reachable_apart_records w Hw _ _ Hs) as Hk.
    rewrite event_key_prefix in Hk. destruct Hk as [event ->]. by exists event.
  - intros ctx c w Hfail.
    destruct (invoke_target_spec ctx c w) as [(e0 & -> & _) | (ev & a & _ & ->)];
      [done|].
    unfold write_event_then_asset. by rewrite Hfail.
  - intros w Hw id a tx Hat Hin.
    destruct (reachable_invariants w Hw) as [Hb Hc].
    destruct (Hb id a tx Hat Hin) as [stored Hs].
    destruct (chaincode_written_decodes w _ stored Hc Hs) as [event He].
    exists stored. split; [done|]. by rewrite He.
Qed.

Lemma history_entries_resolve_to_events_witness :
  (exists event, ledgerP1 !! ("EVENT_" +:+ "tx2") = Some (marshal_event event)) /\
  refused ledgerP1
    (invoke (mkCtx "tx9" (Ok "Org2MSP") "2024-05-07T10:00:00Z" (fun _ => false)
                   (fun key => String.eqb key "EVENT_tx9"))
            (InvokeCreateQACertify "P1" "ASTM-F2924" "FAILED" "CERT-2" "h9")
            ledgerP1).
Proof.
  destruct history_entries_resolve_to_events as (Hevents & Hfail & _).
  split.
  - apply (Hevents ledgerP1) with (id := "P1")
      (a := mkAsset "P1" "Org1MSP" "CERTIFIED" ["tx1"; "tx2"; "tx3"]).
    + apply invoke_all_reachable_apart; [|apply apart_empty].
      repeat constructor.
    + vm_compute. reflexivity.
    + repeat constructor.
  - apply Hfail. reflexivity.
Defined.

(** * The timestamp of a stored event *)

(** C6.  When the put of the event goes through, [recordEvent] returns the
    transaction id and the record then bound under ["EVENT_" + txID] decodes
    to an event whose [Timestamp] is the ledger's clock reading; the call and
    the world state it leaves are the same whatever timestamp the event it is
    given carries.  Every successful invocation of a writing function whose
    asset key is not that event key leaves such a record. *)
Theorem recordEvent_assigns_timestamp (ctx : Ctx) (w : World) :
  (forall (event : ProvenanceEvent) (callerTimestamp : string),
     PutFails ctx ("EVENT_" +:+ GetTxID ctx) = false ->
     exists w' stored stamped,
       recordEvent ctx (set_Timestamp callerTimestamp event) w
         = (w', Ok (GetTxID ctx)) /\
       recordEvent ctx event w = (w', Ok (GetTxID ctx)) /\
       w' !! ("EVENT_" +:+ GetTxID ctx) = Some stored /\
       unmarshal_event stored = Ok stamped /\
       Timestamp stamped = NowRFC3339 ctx) /\
  (forall (c : Call) (w' : World),
     invoke ctx c w = (w', Ok tt) ->
     target c <> "EVENT_" +:+ GetTxID ctx ->
     exists stored stamped,
       w' !! ("EVENT_" +:+ GetTxID ctx) = Some stored /\
       unmarshal_event stored = Ok stamped /\
       Timestamp stamped = NowRFC3339 ctx).
Proof.
  split.
  - intros event callerTimestamp Hput.
    rewrite !recordEvent_spec, set_Timestamp_twice, Hput.
    eexists _, _, _. split; [reflexivity|]. split; [reflexivity|].
    split; [apply lookup_insert_eq|].
    split; [apply unmarshal_marshal_event|]. apply Timestamp_set.
  - intros c w' Hrun Hne.
    destruct (invoke_target_spec ctx c w) as [(e0 & He & _) | (ev & a & Ht & Hw)].
    + congruence.
    + rewrite Hw in Hrun. apply write_event_then_asset_ok in Hrun as (_ & _ & ->).
      exists (marshal_event ev), ev.
      split; [by rewrite lookup_insert_ne, lookup_insert_eq|].
      split; [apply unmarshal_marshal_event|done].
Qed.

Lemma recordEvent_assigns_timestamp_witness :
  let ctx := healthy "tx5" "Org1MSP" "2024-05-05T10:00:00Z" in
  (exists w' stored stamped,
     recordEvent ctx (set_Timestamp "1999-12-31T23:59:59Z" zeroEvent) ∅
       = (w', Ok "tx5") /\
     recordEvent ctx zeroEvent ∅ = (w', Ok "tx5") /\
     w' !! ("EVENT_" +:+ "tx5") = Some stored /\
     unmarshal_event stored = Ok stamped /\
     Timestamp stamped = "2024-05-05T10:00:00Z") /\
  (exists stored stamped,
     ledgerA1 !! ("EVENT_" +:+ "tx0") = Some stored /\
     unmarshal_event stored = Ok stamped /\
     Timestamp stamped = "2024-05-01T10:00:00Z").
Proof.
  intros ctx. split.
  - apply (proj1 (recordEvent_assigns_timestamp ctx ∅) zeroEvent "1999-12-31T23:59:59Z").
    reflexivity.
  - apply (proj2 (recordEvent_assigns_timestamp
                    (healthy "tx0" "Org1MSP" "2024-05-01T10:00:00Z") ∅)
             (InvokeCreateMaterialCertification "A1" "Ti6Al4V" "POWDER-1"
                "SupplierCorpMSP" "h1")
             ledgerA1).
    + vm_compute. reflexivity.
    + discriminate.
Defined.

End EventRecords.
